(** * git-repo-importer: the orchestration of [GitHubImporter], embedded

    The program is one Python class, [GitHubImporter], whose method
    [import_repo] drives a fixed sequence of external interactions
    (shell commands run through [subprocess.run], one [input] prompt,
    [os.path.exists]) and reacts to their results with [sys.exit], with
    exceptions and with a [finally] block.

    The embedding keeps that shape:
    - a Python [str] is a [string].  The string operations that are
      re-implemented here ([rstrip('/')], [endswith], [split('/')],
      slicing off [.git], emptiness) look at ASCII characters only;
      [strip] and [lower], whose result depends on Unicode's character
      classes, are taken from the library, like [urlparse] and
      [json.loads];
    - exceptions are values of [exn]; a method is a computation in a
      state-and-exception monad [M];
    - the outside world answers every external call through an [Env],
      which leaves it free to fail or interrupt any call (Ctrl-C is
      modelled where the program waits, for a child process or at a
      prompt, not between two statements); what a child process wrote
      reaches the program the way [text=True] delivers it: decoded,
      with newlines translated, or as [UnicodeDecodeError];
    - the disk is the set of paths that exist.  An [rm -rf] and a
      [git clone] change it as they read when the values pasted into
      them are plain shell words; the commands are not quoted, so
      otherwise the [Env] says what they did.  The requests, [which]
      and [git push] are taken to leave the disk alone;
    - everything observable (printed lines, commands run, prompts) is
      appended to one chronological event log. *)

From Stdlib Require Import Ascii String ZArith Lia.
From stdpp Require Import base tactics option list gmap strings pretty.

Local Open Scope string_scope.
Local Open Scope Z_scope.

(** ** Shell commands

    Every command the source hands to [subprocess.run(..., shell=True)]
    is one of five shapes.  They are kept structured (the pieces the
    f-strings interpolate) rather than flattened to text. *)

Inductive http_method := GET | POST | PATCH.

(** The [-d] argument of the two requests that carry a body. *)
Inductive payload :=
| RepoData (name : string) (private : bool) (description : string)
| DefaultBranch (branch : string).

(** A [curl -s] invocation.  All of them send
    [Authorization: token <curl_token>] and the GitHub [Accept] header;
    [curl_status_only] stands for [-o /dev/null -w "%{http_code}"];
    a body comes with [Content-Type: application/json]. *)
Record curl := {
  curl_method : http_method;
  curl_status_only : bool;
  curl_token : string;
  curl_body : option payload;
  curl_url : string
}.

Inductive command :=
| Which (dep : string)                           (* which {dep} *)
| Curl (c : curl)
| RmRf (dir : string)                            (* rm -rf {dir} *)
| GitCloneMirror (source dir : string)           (* git clone --mirror {source} {dir} *)
| GitPushMirror (github_url : string).           (* git push --mirror {github_url} *)

(** ** Python values, exceptions, results *)

(** What [json.loads] can return. *)
#[warnings="-register-all"]
Inductive pyval :=
| PyNone
| PyBool (b : bool)
| PyInt (z : Z)
| PyFloat (repr : string)
| PyStr (s : string)
| PyList (items : list pyval)
| PyDict (items : list (string * pyval)).

Inductive exn :=
| SystemExit (code : Z)
| KeyboardInterrupt
| CalledProcessError (cmd : command) (returncode : Z) (stderr : option string)
| FileNotFoundError (path : string)
| JSONDecodeError
| ValueError (msg : string)
| KeyError (key : string)
| TypeError
| AttributeError
| IndexError
| EOFError
| UnicodeDecodeError
| RecursionError.

(** [isinstance(e, Exception)]: everything but the two that derive from
    [BaseException] directly. *)
Definition is_Exception (e : exn) : bool :=
  match e with
  | SystemExit _ | KeyboardInterrupt => false
  | _ => true
  end.

Inductive result (A : Type) : Type :=
| Ok (a : A)
| Raise (e : exn).
Arguments Ok {A} a.
Arguments Raise {A} e.

(** ** The library

    The library functions the source relies on and that are not
    re-implemented here: the development is parametric in them. *)

(** [urllib.parse.ParseResult] *)
Record ParseResult := {
  scheme : string;
  netloc : string;
  path : string;
  params : string;
  query : string;
  fragment : string
}.

(** What [json.loads] raises when it raises: [json.JSONDecodeError] on
    text that is not JSON, and the two exceptions that are not of that
    class, [RecursionError] on nesting that is too deep and
    [ValueError] on a number it refuses to convert. *)
Inductive json_fault :=
| NotJson
| TooDeep
| BadValue (msg : string).

Class PyLib := {
  urlparse : string → result ParseResult;
  (** [json.loads]: [None] where it raises, and then [json_raises] says
      what *)
  json_loads : string → option pyval;
  json_raises : string → json_fault;
  (** [str.strip()] and [str.lower()] *)
  str_strip : string → string;
  str_lower : string → string;
  (** [bytes.decode] in the locale's encoding, as [text=True] does it:
      [None] where it raises [UnicodeDecodeError] *)
  decode : string → option string
}.

(** ** Python string helpers used by the source *)

Module Py.

(** Membership of a character in the argument of [strip]-like calls. *)
Fixpoint char_in (c : ascii) (chars : string) : bool :=
  match chars with
  | EmptyString => false
  | String d chars' => Ascii.eqb c d || char_in c chars'
  end.

Fixpoint rstrip_by (p : ascii → bool) (s : string) : string :=
  match s with
  | EmptyString => EmptyString
  | String c s' =>
      match rstrip_by p s' with
      | EmptyString => if p c then EmptyString else String c EmptyString
      | r => String c r
      end
  end.

(** [s.rstrip(chars)] *)
Definition rstrip (chars : string) (s : string) : string :=
  rstrip_by (λ c, char_in c chars) s.

(** [s.strip()] and [s.lower()], the library's *)
Definition strip {lib : PyLib} (s : string) : string := str_strip s.
Definition lower {lib : PyLib} (s : string) : string := str_lower s.

(** [s.endswith(suffix)]: some tail of [s] is [suffix]. *)
Fixpoint endswith (s suffix : string) : bool :=
  String.eqb s suffix ||
  match s with
  | EmptyString => false
  | String _ s' => endswith s' suffix
  end.

(** [s[:-n]] for a positive literal [n]: all but the last [n]
    characters, the empty string when [s] is shorter. *)
Definition drop_last (n : nat) (s : string) : string :=
  substring 0 (String.length s - n) s.

(** [s.split(sep)] for a separator of one character: never empty. *)
Fixpoint split (sep : ascii) (s : string) : list string :=
  match s with
  | EmptyString => [EmptyString]
  | String c s' =>
      if Ascii.eqb c sep then EmptyString :: split sep s'
      else match split sep s' with
           | piece :: rest => String c piece :: rest
           | [] => [String c EmptyString]
           end
  end.

(** Truthiness of an optional string: [None] and [''] are falsy. *)
Definition truthy (o : option string) : bool :=
  match o with
  | Some (String _ _) => true
  | _ => false
  end.

End Py.

(** ** The outside world *)

(** What a child process did: it exited, having written these bytes
    to its standard output and standard error, or SIGINT came while
    the program waited for it. *)
Inductive child :=
| Exited (returncode : Z) (stdout stderr : string)
| Sigint.

(** What [subprocess.run] makes of it.  The output of a run with
    [capture_output=True, text=True] is decoded and its newlines are
    translated; a run whose output cannot be decoded ends in
    [UnicodeDecodeError]. *)
Inductive proc_reply :=
| Completed (returncode : Z) (stdout stderr : string)
| Interrupted
| Undecodable (returncode : Z).

(** Universal newlines: a carriage return followed by a line feed
    becomes one line feed, then every carriage return that is left
    becomes a line feed. *)
Fixpoint translate_newlines (s : string) : string :=
  match s with
  | EmptyString => EmptyString
  | String c s' =>
      if Ascii.eqb c (ascii_of_nat 13) then
        match s' with
        | String d s'' =>
            if Ascii.eqb d (ascii_of_nat 10)
            then String (ascii_of_nat 10) (translate_newlines s'')
            else String (ascii_of_nat 10) (translate_newlines s')
        | EmptyString => String (ascii_of_nat 10) EmptyString
        end
      else String c (translate_newlines s')
  end.

(** [Popen.communicate] in text mode: standard output is decoded first,
    then standard error; output that is not captured goes to the
    terminal as it is. *)
Definition receive {lib : PyLib} (capture_output : bool) (c : child) : proc_reply :=
  match c with
  | Sigint => Interrupted
  | Exited rc out err =>
      if capture_output then
        match decode out, decode err with
        | Some out', Some err' =>
            Completed rc (translate_newlines out') (translate_newlines err')
        | _, _ => Undecodable rc
        end
      else Completed rc out err
  end.

(** What the terminal gives to [input]. *)
Inductive input_reply :=
| Typed (text : string)
| InputEOF
| InputInterrupted.

(** The outside world of one run.  The answers may depend on how many
    external calls came before and on the call itself. *)
Record Env := {
  getpid : nat;
  run_reply : nat → command → child;
  input_reply_of : nat → string → input_reply;
  (** does a [git clone] that fails or is interrupted leave its target
      directory behind? *)
  clone_leaves_dir : bool;
  (** the commands are f-strings handed to a shell, unquoted: where a
      value pasted into [rm -rf] or [git clone] is not a plain word the
      shell runs something else than the command reads like, and this
      is what that does to the disk *)
  reparsed : command → gset string → gset string
}.

(** ** Observable events *)

(** A printed line: literal text, and the values an f-string renders. *)
Inductive fpart :=
| Lit (s : string)
| OfCommand (c : command)
| OfExn (e : exn)
| OfValue (v : pyval).

Inductive event :=
| EPrint (line : list fpart)
| ERun (cmd : command) (cwd : option string) (r : proc_reply)
| EInput (prompt : string) (r : input_reply).

(** ** The object, the state and the monad of methods *)

Record GitHubImporter := {
  token : string;
  target_user : string;
  source_url : string;
  custom_branch : option string;
  repo_name : string;
  temp_dir : option string
}.

Record State := {
  self : GitHubImporter;
  fs : gset string;          (* the paths that exist on disk *)
  calls : nat;               (* external calls made so far *)
  log : list event           (* oldest first *)
}.

Definition M (A : Type) : Type := State → result A * State.

#[export] Instance result_ret : MRet result := λ A a, Ok a.
#[export] Instance result_bind : MBind result := λ A B f r,
  match r with
  | Ok a => f a
  | Raise e => Raise e
  end.

#[export] Instance M_ret : MRet M := λ A a st, (Ok a, st).
#[export] Instance M_bind : MBind M := λ A B f m st,
  match m st with
  | (Ok a, st') => f a st'
  | (Raise e, st') => (Raise e, st')
  end.

Definition raise {A} (e : exn) : M A := λ st, (Raise e, st).

Definition lift {A} (r : result A) : M A := λ st, (r, st).

(** [try: body / except ...: handler]; [handler e = None] when no
    [except] clause matches [e]. *)
Definition try_except {A} (body : M A) (handler : exn → option (M A)) : M A :=
  λ st,
    match body st with
    | (Raise e, st') =>
        match handler e with
        | Some h => h st'
        | None => (Raise e, st')
        end
    | done => done
    end.

(** [try: body / finally: final]: [final] always runs; what it raises
    replaces the outcome of [body]. *)
Definition try_finally {A} (body : M A) (final : M unit) : M A :=
  λ st,
    match body st with
    | (r, st') =>
        match final st' with
        | (Ok _, st'') => (r, st'')
        | (Raise e, st'') => (Raise e, st'')
        end
    end.

Definition sys_exit {A} (code : Z) : M A := raise (SystemExit code).

Definition record_event (e : event) (st : State) : State :=
  {| self := self st; fs := fs st; calls := calls st; log := log st ++ [e] |}.

Definition print (line : list fpart) : M unit :=
  λ st, (Ok tt, record_event (EPrint line) st).

Definition get_self : M GitHubImporter := λ st, (Ok (self st), st).

Definition set_temp_dir (d : option string) : M unit :=
  λ st,
    (Ok tt,
     {| self := {| token := token (self st);
                   target_user := target_user (self st);
                   source_url := source_url (self st);
                   custom_branch := custom_branch (self st);
                   repo_name := repo_name (self st);
                   temp_dir := d |};
        fs := fs st; calls := calls st; log := log st |}).

(** [os.path.exists] *)
Definition os_path_exists (p : string) : M bool :=
  λ st, (Ok (bool_decide (p ∈ fs st)), st).

(** A plain word of shell text: not empty, and made of letters,
    digits and a few marks that no shell reads as anything else. *)
Definition shell_char (c : ascii) : bool :=
  let n := nat_of_ascii c in
  ((48 <=? n)%nat && (n <=? 57)%nat) || ((65 <=? n)%nat && (n <=? 90)%nat)
  || ((97 <=? n)%nat && (n <=? 122)%nat) || Py.char_in c "_-./:@%+=,".

Fixpoint shell_chars (s : string) : bool :=
  match s with
  | EmptyString => true
  | String c s' => shell_char c && shell_chars s'
  end.

Definition shell_word (s : string) : bool :=
  match s with
  | EmptyString => false
  | _ => shell_chars s
  end.

(** What a command that exited with code 0 did to the disk.  [rm -rf]
    removed its target and [git clone] created its target where the
    pasted values are plain words, so that the shell ran them as they
    read; where they are not, the world says what happened.  Requests,
    [which] and [git push] leave the disk alone. *)
Definition fs_done (env : Env) (cmd : command) (disk : gset string) : gset string :=
  match cmd with
  | RmRf d =>
      if shell_word d then disk ∖ {[ d ]} else reparsed env cmd disk
  | GitCloneMirror source d =>
      if shell_word source && shell_word d then {[ d ]} ∪ disk
      else reparsed env cmd disk
  | _ => disk
  end.

(** What a command that failed or was interrupted did to the disk: an
    [rm -rf] left its target, a [git clone] may have left its target
    behind. *)
Definition fs_cut_short (env : Env) (cmd : command) (disk : gset string)
    : gset string :=
  match cmd with
  | RmRf d => if shell_word d then disk else reparsed env cmd disk
  | GitCloneMirror source d =>
      if shell_word source && shell_word d
      then (if clone_leaves_dir env then {[ d ]} ∪ disk else disk)
      else reparsed env cmd disk
  | _ => disk
  end.

Definition fs_after (env : Env) (cmd : command) (r : proc_reply)
    (disk : gset string) : gset string :=
  match r with
  | Completed rc _ _ =>
      if (rc =? 0)%Z then fs_done env cmd disk else fs_cut_short env cmd disk
  | _ => fs_cut_short env cmd disk
  end.

(** [subprocess.CompletedProcess] *)
Record CompletedProcess := {
  returncode : Z;
  stdout : option string;
  stderr : option string
}.

Module Colors.
Definition ESC : string := String (ascii_of_nat 27) "".
Definition HEADER := ESC +:+ "[95m".
Definition OKBLUE := ESC +:+ "[94m".
Definition OKCYAN := ESC +:+ "[96m".
Definition OKGREEN := ESC +:+ "[92m".
Definition WARNING := ESC +:+ "[93m".
Definition FAIL := ESC +:+ "[91m".
Definition ENDC := ESC +:+ "[0m".
Definition BOLD := ESC +:+ "[1m".
Definition UNDERLINE := ESC +:+ "[4m".
End Colors.

Definition NL : string := String (ascii_of_nat 10) "".

(** A line in one colour: [print(f"{colour}{text}{Colors.ENDC}")]. *)
Definition coloured (colour text : string) : list fpart :=
  [Lit (colour +:+ text +:+ Colors.ENDC)].

(** ** Small pieces of Python on decoded JSON *)

Fixpoint assoc (key : string) (items : list (string * pyval)) : option pyval :=
  match items with
  | [] => None
  | (k, v) :: rest => if String.eqb k key then Some v else assoc key rest
  end.

(** [v == s] for a string literal [s] *)
Definition py_eq_str (v : pyval) (s : string) : bool :=
  match v with
  | PyStr s' => String.eqb s' s
  | _ => false
  end.

(** [v.get(key)] *)
Definition py_get (v : pyval) (key : string) : result pyval :=
  match v with
  | PyDict items => Ok (default PyNone (assoc key items))
  | _ => Raise AttributeError
  end.

(** [key in v] *)
Definition py_contains (key : string) (v : pyval) : result bool :=
  match v with
  | PyDict items => Ok (bool_decide (is_Some (assoc key items)))
  | PyList items => Ok (existsb (λ x, py_eq_str x key) items)
  | PyStr s => Ok (bool_decide (is_Some (index 0 key s)))
  | _ => Raise TypeError
  end.

(** [v[key]] for a string [key] *)
Definition py_getitem (v : pyval) (key : string) : result pyval :=
  match v with
  | PyDict items =>
      match assoc key items with
      | Some x => Ok x
      | None => Raise (KeyError key)
      end
  | _ => Raise TypeError
  end.

(** ** The methods of [GitHubImporter] *)

Section Methods.
Context {lib : PyLib} (env : Env).

(** [json.loads] on what [_run_command] returned *)
Definition py_json_loads (text : option string) : result pyval :=
  match text with
  | None => Raise TypeError
  | Some s =>
      match json_loads s with
      | Some v => Ok v
      | None =>
          Raise match json_raises s with
                | NotJson => JSONDecodeError
                | TooDeep => RecursionError
                | BadValue msg => ValueError msg
                end
      end
  end.

(** [input(prompt)] *)
Definition input (prompt : string) : M string :=
  λ st,
    let r := input_reply_of env (calls st) prompt in
    let st' := {| self := self st; fs := fs st; calls := S (calls st);
                  log := log st ++ [EInput prompt r] |} in
    match r with
    | Typed text => (Ok text, st')
    | InputEOF => (Raise EOFError, st')
    | InputInterrupted => (Raise KeyboardInterrupt, st')
    end.

(** [subprocess.run(command, shell=True, cwd=cwd, check=check)], with
    [capture_output=True, text=True] where the output is captured *)
Definition subprocess_run (command : command) (cwd : option string)
    (check capture_output : bool) : M CompletedProcess :=
  λ st,
    let missing_cwd :=
      match cwd with
      | Some d => negb (bool_decide (d ∈ fs st))
      | None => false
      end in
    if missing_cwd then (Raise (FileNotFoundError (default "" cwd)), st)
    else
      let r := receive capture_output (run_reply env (calls st) command) in
      let st' := {| self := self st;
                    fs := fs_after env command r (fs st);
                    calls := S (calls st);
                    log := log st ++ [ERun command cwd r] |} in
      match r with
      | Interrupted => (Raise KeyboardInterrupt, st')
      | Undecodable _ => (Raise UnicodeDecodeError, st')
      | Completed rc out err =>
          let captured (s : string) := if capture_output then Some s else None in
          if check && negb (rc =? 0)
          then (Raise (CalledProcessError command rc (captured err)), st')
          else (Ok {| returncode := rc; stdout := captured out;
                      stderr := captured err |}, st')
      end.

Definition _extract_repo_name (url : string) : result string :=
  parsed ← urlparse url;
  let path := Py.rstrip "/" (path parsed) in
  (* Remove .git extension if present *)
  let path := if Py.endswith path ".git" then Py.drop_last 4 path else path in
  (* Get last part of path *)
  match last (Py.split "/" path) with
  | None => Raise IndexError
  | Some repo_name =>
      if String.eqb repo_name "" then
        Raise (ValueError "Could not extract repository name from URL")
      else Ok repo_name
  end.

Definition __init__ (token target_user source_url : string)
    (custom_branch repo_name : option string) : result GitHubImporter :=
  name ← (if Py.truthy repo_name then Ok (default "" repo_name)
          else _extract_repo_name source_url);
  Ok {| token := token; target_user := target_user;
        source_url := source_url; custom_branch := custom_branch;
        repo_name := name; temp_dir := None |}.

Definition _run_command (command : command) (cwd : option string)
    (check capture_output : bool) : M (option string) :=
  try_except
    (if capture_output then
       result ← subprocess_run command cwd check true;
       mret (Py.strip <$> stdout result)
     else
       subprocess_run command cwd check false;;
       mret None)
    (λ e,
       match e with
       | CalledProcessError _ _ e_stderr =>
           Some (print [Lit (Colors.FAIL +:+ "Error executing command: ");
                        OfCommand command; Lit Colors.ENDC];;
                 print [Lit Colors.FAIL; OfExn e; Lit Colors.ENDC];;
                 (if capture_output && Py.truthy e_stderr then
                    print (coloured Colors.FAIL
                             ("Error output: " +:+ default "" e_stderr))
                  else mret tt);;
                 raise e)
       | _ => None
       end).

(** [for dep in dependencies: ...], threading the list [missing] *)
Fixpoint check_each (dependencies missing : list string) : M (list string) :=
  match dependencies with
  | [] => mret missing
  | dep :: rest =>
      missing' ←
        try_except
          (_run_command (Which dep) None true true;; mret missing)
          (λ e,
             match e with
             | CalledProcessError _ _ _ => Some (mret (missing ++ [dep])%list)
             | _ => None
             end);
      check_each rest missing'
  end.

Definition _check_dependencies : M unit :=
  print (coloured Colors.OKBLUE "Checking dependencies...");;
  let dependencies := ["git"; "curl"] in
  missing ← check_each dependencies [];
  (match missing with
   | _ :: _ =>
       print (coloured Colors.FAIL
                ("Missing dependencies: " +:+ String.concat ", " missing));;
       print (coloured Colors.WARNING
                "Please install missing dependencies and try again");;
       sys_exit 1
   | [] => mret tt
   end);;
  print (coloured Colors.OKGREEN "All dependencies are installed").

Definition validate_request (self : GitHubImporter) : command :=
  Curl {| curl_method := GET; curl_status_only := true;
          curl_token := token self; curl_body := None;
          curl_url := "https://api.github.com/user" |}.

Definition _validate_token : M unit :=
  self ← get_self;
  print (coloured Colors.OKBLUE "Validating GitHub token...");;
  let curl_command := validate_request self in
  status_code ← _run_command curl_command None true true;
  (if bool_decide (status_code ≠ Some "200") then
     print (coloured Colors.FAIL
              ("Invalid GitHub token. Status code: " +:+ default "None" status_code));;
     sys_exit 1
   else mret tt);;
  print (coloured Colors.OKGREEN "GitHub token is valid").

Definition probe_request (self : GitHubImporter) : command :=
  Curl {| curl_method := GET; curl_status_only := true;
          curl_token := token self; curl_body := None;
          curl_url := "https://api.github.com/repos/" +:+ target_user self
                      +:+ "/" +:+ repo_name self |}.

Definition overwrite_prompt : string := "Do you want to overwrite it? (yes/no): ".

Definition _check_repo_exists : M bool :=
  self ← get_self;
  print (coloured Colors.OKBLUE "Checking if repository already exists...");;
  let curl_command := probe_request self in
  status_code ← _run_command curl_command None true true;
  if bool_decide (status_code = Some "200") then
    print (coloured Colors.WARNING
             ("Repository " +:+ target_user self +:+ "/" +:+ repo_name self
              +:+ " already exists"));;
    response ← (text ← input overwrite_prompt; mret (Py.lower (Py.strip text)));
    (if bool_decide (response ≠ "yes") then
       print (coloured Colors.WARNING "Import cancelled by user");;
       sys_exit 0
     else mret tt);;
    mret true
  else mret false.

Definition org_check_request (self : GitHubImporter) : command :=
  Curl {| curl_method := GET; curl_status_only := false;
          curl_token := token self; curl_body := None;
          curl_url := "https://api.github.com/users/" +:+ target_user self |}.

Definition org_endpoint (self : GitHubImporter) : string :=
  "https://api.github.com/orgs/" +:+ target_user self +:+ "/repos".

Definition user_endpoint : string := "https://api.github.com/user/repos".

Definition create_request (self : GitHubImporter) (api_endpoint : string) : command :=
  Curl {| curl_method := POST; curl_status_only := false;
          curl_token := token self;
          curl_body := Some (RepoData (repo_name self) false
                               ("Imported from " +:+ source_url self));
          curl_url := api_endpoint |}.

Definition creating_line : list fpart :=
  coloured Colors.OKBLUE "Creating repository on GitHub...".

Definition _create_github_repo : M bool :=
  self ← get_self;
  print creating_line;;
  (* Check if target is organization or user *)
  let org_check := org_check_request self in
  user_info ← _run_command org_check None true true;
  is_org ←
    try_except
      (user_data ← lift (py_json_loads user_info);
       type ← lift (py_get user_data "type");
       mret (py_eq_str type "Organization"))
      (λ e,
         match e with
         | JSONDecodeError =>
             Some (print (coloured Colors.FAIL
                            "Failed to check if target is organization or user");;
                   mret false)
         | _ => None
         end);
  (* Prepare API endpoint *)
  let api_endpoint := if is_org : bool then org_endpoint self else user_endpoint in
  (* Create repository *)
  let curl_command := create_request self api_endpoint in
  result ← _run_command curl_command None true true;
  try_except
    (response ← lift (py_json_loads result);
     has_id ← lift (py_contains "id" response);
     if has_id : bool then
       html_url ← lift (py_getitem response "html_url");
       print [Lit (Colors.OKGREEN +:+ "Repository created: ");
              OfValue html_url; Lit Colors.ENDC];;
       mret true
     else
       print (coloured Colors.FAIL "Failed to create repository");;
       print (coloured Colors.FAIL (default "None" result));;
       mret false)
    (λ e,
       match e with
       | JSONDecodeError =>
           Some (print (coloured Colors.FAIL "Failed to parse GitHub API response");;
                 print (coloured Colors.FAIL (default "None" result));;
                 mret false)
       | _ => None
       end).

(** [f"/tmp/git-import-{self.repo_name}-{os.getpid()}"] *)
Definition staging_path (self : GitHubImporter) : string :=
  "/tmp/git-import-" +:+ repo_name self +:+ "-" +:+ pretty (getpid env).

Definition cloning_line : list fpart :=
  coloured Colors.OKBLUE "Cloning source repository...".

Definition _clone_source_repo : M unit :=
  self ← get_self;
  print cloning_line;;
  let dir := staging_path self in
  set_temp_dir (Some dir);;
  present ← os_path_exists dir;
  (if present : bool then _run_command (RmRf dir) None true false;; mret tt
   else mret tt);;
  let clone_command := GitCloneMirror (source_url self) dir in
  try_except
    (_run_command clone_command None true false;;
     print (coloured Colors.OKGREEN "Source repository cloned successfully"))
    (λ e,
       match e with
       | CalledProcessError _ _ _ =>
           Some (print (coloured Colors.FAIL "Failed to clone source repository");;
                 sys_exit 1)
       | _ => None
       end).

Definition github_url (self : GitHubImporter) : string :=
  "https://" +:+ token self +:+ "@github.com/" +:+ target_user self
  +:+ "/" +:+ repo_name self +:+ ".git".

Definition update_branch_request (self : GitHubImporter) (branch : string) : command :=
  Curl {| curl_method := PATCH; curl_status_only := false;
          curl_token := token self;
          curl_body := Some (DefaultBranch branch);
          curl_url := "https://api.github.com/repos/" +:+ target_user self
                      +:+ "/" +:+ repo_name self |}.

Definition _push_to_github : M unit :=
  self ← get_self;
  print (coloured Colors.OKBLUE "Pushing to GitHub...");;
  let github_url := github_url self in
  (if Py.truthy (custom_branch self) then
     let branch := default "" (custom_branch self) in
     (* Push specific branch *)
     let push_command := GitPushMirror github_url in
     _run_command push_command (temp_dir self) true false;;
     (* Update default branch if custom branch is specified *)
     print (coloured Colors.OKBLUE ("Setting default branch to " +:+ branch +:+ "..."));;
     let update_branch_command := update_branch_request self branch in
     _run_command update_branch_command None true true;;
     mret tt
   else
     (* Push all branches *)
     let push_command := GitPushMirror github_url in
     _run_command push_command (temp_dir self) true false;;
     mret tt);;
  print (coloured Colors.OKGREEN "Repository pushed successfully").

Definition _cleanup : M unit :=
  self ← get_self;
  if Py.truthy (temp_dir self) then
    let dir := default "" (temp_dir self) in
    present ← os_path_exists dir;
    if present : bool then
      print (coloured Colors.OKBLUE "Cleaning up temporary files...");;
      _run_command (RmRf dir) None true false;;
      print (coloured Colors.OKGREEN "Cleanup completed")
    else mret tt
  else mret tt.

Definition rule50 : string := "==================================================".

(** The [try] block of [import_repo]. *)
Definition import_steps : M unit :=
  self ← get_self;
  print (coloured Colors.HEADER "=== Git Repository Importer ===");;
  print [Lit ("Source: " +:+ source_url self)];;
  print [Lit ("Target: " +:+ target_user self +:+ "/" +:+ repo_name self)];;
  (if Py.truthy (custom_branch self) then
     print [Lit ("Custom branch: " +:+ default "" (custom_branch self))]
   else mret tt);;
  print [];;
  (* Check dependencies *)
  _check_dependencies;;
  (* Validate token *)
  _validate_token;;
  (* Check if repo exists *)
  repo_exists ← _check_repo_exists;
  (* Create repository if it doesn't exist *)
  (if negb repo_exists then
     created ← _create_github_repo;
     if negb created then sys_exit 1 else mret tt
   else mret tt);;
  (* Clone source repository *)
  _clone_source_repo;;
  (* Push to GitHub *)
  _push_to_github;;
  (* Success message *)
  print [];;
  print (coloured Colors.OKGREEN rule50);;
  print (coloured Colors.OKGREEN "Import completed successfully!");;
  print (coloured Colors.OKGREEN
           ("Repository URL: https://github.com/" +:+ target_user self
            +:+ "/" +:+ repo_name self));;
  print (coloured Colors.OKGREEN rule50).

(** The [except] clauses of [import_repo]: [KeyboardInterrupt] first,
    then [Exception]; [SystemExit] matches neither. *)
Definition on_error (e : exn) : option (M unit) :=
  match e with
  | KeyboardInterrupt =>
      Some (print [Lit (NL +:+ Colors.WARNING +:+ "Import cancelled by user"
                        +:+ Colors.ENDC)];;
            sys_exit 1)
  | _ =>
      if is_Exception e then
        Some (print [Lit (NL +:+ Colors.FAIL +:+ "Unexpected error: ");
                     OfExn e; Lit Colors.ENDC];;
              sys_exit 1)
      else None
  end.

Definition import_repo : M unit :=
  try_finally (try_except import_steps on_error) _cleanup.

End Methods.

(** ** A whole run *)

(** The importer as [__init__] leaves it, on a given disk, before any
    external call. *)
Definition start (importer : GitHubImporter) (disk : gset string) : State :=
  {| self := importer; fs := disk; calls := 0; log := [] |}.

(** The exit status the operating system sees: 0 when [main] returns,
    the argument of [sys.exit], 1 for an exception nobody caught (130
    when that exception is [KeyboardInterrupt]). *)
Definition exit_status (r : result unit) : Z :=
  match r with
  | Ok _ => 0
  | Raise (SystemExit code) => code
  | Raise KeyboardInterrupt => 130
  | Raise _ => 1
  end.

(** The last two statements of [main]:
    [importer = GitHubImporter(token, user, source, branch, name)] and
    [importer.import_repo()].  The result is the outcome, the disk and
    the event log at process exit. *)
Definition main_run `{PyLib} (env : Env) (disk : gset string)
    (token user source : string) (branch name : option string)
    : result unit * gset string * list event :=
  match __init__ token user source branch name with
  | Raise e => (Raise e, disk, [])
  | Ok importer =>
      let '(r, st) := import_repo env (start importer disk) in
      (r, fs st, log st)
  end.

(** ** Reading the event log *)

Definition is_call (e : event) : bool :=
  match e with
  | EPrint _ => false
  | _ => true
  end.

Definition is_run (p : command → bool) (e : event) : bool :=
  match e with
  | ERun cmd _ _ => p cmd
  | _ => false
  end.

Definition is_curl_with (m : http_method) (cmd : command) : bool :=
  match cmd with
  | Curl c =>
      match m, curl_method c with
      | GET, GET | POST, POST | PATCH, PATCH => true
      | _, _ => false
      end
  | _ => false
  end.

(** The repository-creation request, the clone, the push, the
    default-branch update, and [rm -rf]. *)
Definition is_create (e : event) : bool := is_run (is_curl_with POST) e.
Definition is_update_branch (e : event) : bool := is_run (is_curl_with PATCH) e.
Definition is_clone (e : event) : bool :=
  is_run (λ cmd, match cmd with GitCloneMirror _ _ => true | _ => false end) e.
Definition is_push (e : event) : bool :=
  is_run (λ cmd, match cmd with GitPushMirror _ => true | _ => false end) e.
Definition is_rm (e : event) : bool :=
  is_run (λ cmd, match cmd with RmRf _ => true | _ => false end) e.

(** Any request to the hosting API ([curl]) or use of the
    version-control tool ([git]). *)
Definition is_api_or_vcs (e : event) : bool :=
  is_run (λ cmd, match cmd with
                 | Curl _ | GitCloneMirror _ _ | GitPushMirror _ => true
                 | _ => false
                 end) e.

Fixpoint count (p : event → bool) (l : list event) : nat :=
  match l with
  | [] => 0
  | e :: l' => if p e then S (count p l') else count p l'
  end.

(** The events before, and after, the first one that satisfies [p]. *)
Fixpoint events_before (p : event → bool) (l : list event) : list event :=
  match l with
  | [] => []
  | e :: l' => if p e then [] else e :: events_before p l'
  end.

Fixpoint events_after (p : event → bool) (l : list event) : list event :=
  match l with
  | [] => []
  | e :: l' => if p e then l' else events_after p l'
  end.

(** ** A concrete library and concrete worlds, for examples

    The library of the examples is meant for the texts of the examples
    only.  [urlparse_plain] follows [urlsplit] and [_splitparams] of
    [urllib.parse] in the order in which they split off scheme,
    [//netloc], fragment, query and parameters, and leaves out what
    they do about blanks, control characters, brackets and characters
    outside ASCII; it stands for [urlparse] on the URLs of the
    examples, which are a scheme of letters, [://], and then letters,
    digits and the marks [/.-].  [strip] and [lower] know the ASCII
    blanks and letters; [decode_ascii] accepts ASCII and nothing
    else. *)

Module Sample.

(** [str.isspace] on one character, for code points below 128. *)
Definition isspace (c : ascii) : bool :=
  let n := nat_of_ascii c in
  ((9 <=? n)%nat && (n <=? 13)%nat) || ((28 <=? n)%nat && (n <=? 32)%nat).

Fixpoint lstrip_by (p : ascii → bool) (s : string) : string :=
  match s with
  | EmptyString => EmptyString
  | String c s' => if p c then lstrip_by p s' else s
  end.

Definition strip (s : string) : string :=
  lstrip_by isspace (Py.rstrip_by isspace s).

Definition lower_char (c : ascii) : ascii :=
  let n := nat_of_ascii c in
  if ((65 <=? n)%nat && (n <=? 90)%nat)%bool then ascii_of_nat (n + 32) else c.

Fixpoint lower (s : string) : string :=
  match s with
  | EmptyString => EmptyString
  | String c s' => String (lower_char c) (lower s')
  end.

Fixpoint is_ascii (s : string) : bool :=
  match s with
  | EmptyString => true
  | String c s' => (nat_of_ascii c <? 128)%nat && is_ascii s'
  end.

Definition decode_ascii (s : string) : option string :=
  if is_ascii s then Some s else None.

Definition take (n : nat) (s : string) : string := substring 0 n s.
Definition drop (n : nat) (s : string) : string := substring n (String.length s - n) s.

(** position of the first character satisfying [p], from the left *)
Fixpoint find_by (p : ascii → bool) (s : string) : option nat :=
  match s with
  | EmptyString => None
  | String c s' => if p c then Some 0%nat else S <$> find_by p s'
  end.

(** [s.partition(c)] without the separator: before and after the first [c] *)
Definition cut (c : ascii) (s : string) : string * string :=
  match find_by (Ascii.eqb c) s with
  | Some i => (take i s, drop (S i) s)
  | None => (s, "")
  end.

Definition is_alpha (c : ascii) : bool :=
  let n := nat_of_ascii (lower_char c) in (97 <=? n)%nat && (n <=? 122)%nat.

Definition is_scheme_char (c : ascii) : bool :=
  let n := nat_of_ascii c in
  is_alpha c || ((48 <=? n)%nat && (n <=? 57)%nat) || Py.char_in c "+-.".

Fixpoint all_chars (p : ascii → bool) (s : string) : bool :=
  match s with
  | EmptyString => true
  | String c s' => p c && all_chars p s'
  end.

Definition uses_params : list string :=
  [""; "ftp"; "hdl"; "prospero"; "http"; "imap"; "https"; "shttp"; "rtsp";
   "rtspu"; "sip"; "sips"; "mms"; "sftp"; "tel"].

Definition split_scheme (url : string) : string * string :=
  match find_by (Ascii.eqb ":") url with
  | Some (S i) =>
      let candidate := take (S i) url in
      if match url with String c _ => is_alpha c | _ => false end
         && all_chars is_scheme_char candidate
      then (lower candidate, drop (S (S i)) url)
      else ("", url)
  | _ => ("", url)
  end.

Definition split_netloc (url : string) : string * string :=
  if String.prefix "//" url then
    let rest := drop 2 url in
    match find_by (λ c, Py.char_in c "/?#") rest with
    | Some i => (take i rest, drop i rest)
    | None => (rest, "")
    end
  else ("", url).

(** [_splitparams]: parameters are looked for after the last [/] *)
Definition split_params (url : string) : string * string :=
  let segments := Py.split "/" url in
  let final := default "" (last segments) in
  let before := take (String.length url - String.length final) url in
  match find_by (Ascii.eqb ";") final with
  | Some i => (before +:+ take i final, drop (S i) final)
  | None => (url, "")
  end.

Definition urlparse_plain (url : string) : result ParseResult :=
  let '(scheme, url) := split_scheme url in
  let '(netloc, url) := split_netloc url in
  let '(url, fragment) := cut "#" url in
  let '(url, query) := cut "?" url in
  let '(url, params) :=
    if bool_decide (scheme ∈ uses_params) then split_params url else (url, "") in
  Ok {| scheme := scheme; netloc := netloc; path := url; params := params;
        query := query; fragment := fragment |}.

(** A decoder that knows the finitely many texts of an example. *)
Definition decode_table (table : list (string * pyval)) (text : string) : option pyval :=
  assoc text table.

(** a JSON string literal: the text between double quotes *)
Definition quoted (s : string) : string :=
  String (ascii_of_nat 34) s +:+ String (ascii_of_nat 34) "".

(** Response bodies of the hosting API, and what they decode to. *)
Definition user_body : string :=
  "{" +:+ quoted "login" +:+ ": " +:+ quoted "alice" +:+ ", "
  +:+ quoted "type" +:+ ": " +:+ quoted "User" +:+ "}".

Definition created_body : string :=
  "{" +:+ quoted "id" +:+ ": 7, " +:+ quoted "html_url" +:+ ": "
  +:+ quoted "https://github.com/alice/proj" +:+ "}".

Definition refused_body : string :=
  "{" +:+ quoted "message" +:+ ": " +:+ quoted "Bad credentials" +:+ "}".

Definition gateway_body : string := "<html>502 Bad Gateway</html>".

Definition responses : list (string * pyval) :=
  [(user_body, PyDict [("login", PyStr "alice"); ("type", PyStr "User")]);
   (created_body,
    PyDict [("id", PyInt 7); ("html_url", PyStr "https://github.com/alice/proj")]);
   (refused_body, PyDict [("message", PyStr "Bad credentials")])].

Definition lib : PyLib :=
  {| urlparse := urlparse_plain;
     json_loads := decode_table responses; json_raises := λ _, NotJson;
     str_strip := strip; str_lower := lower; decode := decode_ascii |}.

(** A scripted world: every tool is installed; the two status requests,
    the user-type lookup, the creation request, the prompt, the clone
    and the push answer as the script says; everything else succeeds. *)
Record script := {
  validate_status : string;
  probe_status : string;
  lookup_body : string;
  create_body : string;
  typed : string;
  clone_reply : child;
  push_reply : child
}.

Definition world (sc : script) : Env :=
  {| getpid := 4242;
     run_reply := λ _ cmd,
       match cmd with
       | Which _ => Exited 0 "/usr/bin/tool" ""
       | Curl c =>
           match curl_method c with
           | GET =>
               if curl_status_only c then
                 if String.eqb (curl_url c) "https://api.github.com/user"
                 then Exited 0 (validate_status sc) ""
                 else Exited 0 (probe_status sc) ""
               else Exited 0 (lookup_body sc) ""
           | POST => Exited 0 (create_body sc) ""
           | PATCH => Exited 0 "{}" ""
           end
       | RmRf _ => Exited 0 "" ""
       | GitCloneMirror _ _ => clone_reply sc
       | GitPushMirror _ => push_reply sc
       end;
     input_reply_of := λ _ _, Typed (typed sc);
     clone_leaves_dir := true;
     reparsed := λ _ disk, disk |}.

(** The same world on a disk where nothing can be removed. *)
Definition stuck_world (sc : script) : Env :=
  {| getpid := 4242;
     run_reply := λ n cmd,
       match cmd with
       | RmRf _ => Exited 1 "" "rm: cannot remove"
       | _ => run_reply (world sc) n cmd
       end;
     input_reply_of := input_reply_of (world sc);
     clone_leaves_dir := true;
     reparsed := λ _ disk, disk |}.

(** Valid token, no repository yet, a user account, creation accepted. *)
Definition happy : script :=
  {| validate_status := "200"; probe_status := "404";
     lookup_body := user_body; create_body := created_body; typed := "";
     clone_reply := Exited 0 "" ""; push_reply := Exited 0 "" "" |}.

(** The hosting service rejects the token. *)
Definition rejected_token : script :=
  {| validate_status := "401"; probe_status := "404";
     lookup_body := user_body; create_body := created_body; typed := "";
     clone_reply := Exited 0 "" ""; push_reply := Exited 0 "" "" |}.

(** The repository exists already and the user answers no. *)
Definition declined : script :=
  {| validate_status := "200"; probe_status := "200";
     lookup_body := user_body; create_body := created_body; typed := "no";
     clone_reply := Exited 0 "" ""; push_reply := Exited 0 "" "" |}.

(** A gateway answers the user-type lookup with an error page. *)
Definition garbled_lookup : script :=
  {| validate_status := "200"; probe_status := "404";
     lookup_body := gateway_body; create_body := created_body; typed := "";
     clone_reply := Exited 0 "" ""; push_reply := Exited 0 "" "" |}.

(** A gateway answers the creation request with an error page. *)
Definition garbled_creation : script :=
  {| validate_status := "200"; probe_status := "404";
     lookup_body := user_body; create_body := gateway_body; typed := "";
     clone_reply := Exited 0 "" ""; push_reply := Exited 0 "" "" |}.

(** The user presses Ctrl-C while the clone is running. *)
Definition interrupted_clone : script :=
  {| validate_status := "200"; probe_status := "404";
     lookup_body := user_body; create_body := created_body; typed := "";
     clone_reply := Sigint; push_reply := Exited 0 "" "" |}.

(** The job of the examples. *)
Definition source : string := "https://example.com/group/proj.git".
Definition job (branch : option string) : GitHubImporter :=
  {| token := "tok"; target_user := "alice"; source_url := source;
     custom_branch := branch; repo_name := "proj"; temp_dir := None |}.
Definition staging : string := "/tmp/git-import-proj-4242".

End Sample.

(** ** Vocabulary of the statements about names *)

Fixpoint has_char (c : ascii) (s : string) : bool :=
  match s with
  | EmptyString => false
  | String d s' => Ascii.eqb d c || has_char c s'
  end.

(** [n] slashes *)
Fixpoint slashes (n : nat) : string :=
  match n with
  | O => EmptyString
  | S n' => String "/" (slashes n')
  end.

(** What may stand before the final segment of a path: nothing, or
    text that ends in a slash. *)
Definition dir_part (dir : string) : Prop :=
  dir = "" ∨ ∃ d, dir = d +:+ "/".

(** [seg] is the final segment of [path]: what follows its last slash. *)
Definition final_segment (path seg : string) : Prop :=
  ∃ dir, path = dir +:+ seg ∧ dir_part dir ∧ has_char "/" seg = false.

(** [seg] is the last non-empty segment of [path]: only slashes follow it. *)
Definition last_nonempty_segment (path seg : string) : Prop :=
  ∃ dir n, path = dir +:+ seg +:+ slashes n
           ∧ dir_part dir ∧ has_char "/" seg = false ∧ seg ≠ "".

(** [name] is [seg] with a trailing [.git] removed, if it has one. *)
Definition without_git_suffix (seg name : string) : Prop :=
  seg = name +:+ ".git" ∨ (name = seg ∧ ∀ stem, seg ≠ stem +:+ ".git").

(** The object [__init__] returns when it returns one. *)
Definition importer (token target_user source_url : string)
    (custom_branch : option string) (repo_name : string) : GitHubImporter :=
  {| token := token; target_user := target_user; source_url := source_url;
     custom_branch := custom_branch; repo_name := repo_name; temp_dir := None |}.

Definition no_repo_name : exn :=
  ValueError "Could not extract repository name from URL".


(** ** [main]

    [main] runs before there is a [GitHubImporter]: its state is the
    process alone (disk, external calls made, event log).  The
    namespace that [parser.parse_args()] returns is its input; what
    [argparse] itself does with the command line is not modelled. *)

(** [args]: an option that was not given is [None]. *)
Record Namespace := {
  args_token : option string;
  args_user : option string;
  args_source : option string;
  args_branch : option string;
  args_name : option string;
  args_interactive : bool
}.

Record Process := {
  p_fs : gset string;
  p_calls : nat;
  p_log : list event
}.

Definition P (A : Type) : Type := Process → result A * Process.

#[export] Instance P_ret : MRet P := λ A a p, (Ok a, p).
#[export] Instance P_bind : MBind P := λ A B f m p,
  match m p with
  | (Ok a, p') => f a p'
  | (Raise e, p') => (Raise e, p')
  end.

Definition p_print (line : list fpart) : P unit :=
  λ p, (Ok tt, {| p_fs := p_fs p; p_calls := p_calls p;
                  p_log := p_log p ++ [EPrint line] |}).

Definition p_exit {A} (code : Z) : P A := λ p, (Raise (SystemExit code), p).

Definition p_lift {A} (r : result A) : P A := λ p, (r, p).

(** [input(prompt)] *)
Definition p_input (env : Env) (prompt : string) : P string :=
  λ p,
    let r := input_reply_of env (p_calls p) prompt in
    let p' := {| p_fs := p_fs p; p_calls := S (p_calls p);
                 p_log := p_log p ++ [EInput prompt r] |} in
    match r with
    | Typed text => (Ok text, p')
    | InputEOF => (Raise EOFError, p')
    | InputInterrupted => (Raise KeyboardInterrupt, p')
    end.

(** [obj.method()]: the method runs on the process with [obj] as
    [self]; the object is dropped afterwards. *)
Definition call_method {A} (obj : GitHubImporter) (method : M A) : P A :=
  λ p,
    let '(r, st) := method {| self := obj; fs := p_fs p; calls := p_calls p;
                              log := p_log p |} in
    (r, {| p_fs := fs st; p_calls := calls st; p_log := log st |}).

Definition token_prompt : string := "Enter GitHub token: ".
Definition user_prompt : string := "Enter target username/organization: ".
Definition source_prompt : string := "Enter source repository URL: ".
Definition branch_prompt : string :=
  "Enter custom default branch (press Enter to skip): ".
Definition name_prompt : string :=
  "Enter custom repository name (press Enter to use default): ".

(** [given or input(prompt).strip()] *)
Definition or_input `{PyLib} (env : Env) (given : option string)
    (prompt : string) : P string :=
  if Py.truthy given then mret (default "" given)
  else text ← p_input env prompt; mret (Py.strip text).

(** [s or None] *)
Definition or_None (s : string) : option string :=
  if Py.truthy (Some s) then Some s else None.

(** The five values [main] works with: token, user, source, branch,
    name. *)
Definition inputs : Type :=
  string * string * string * option string * option string.

(** The [if args.interactive or not (...): ... else: ...] of [main]. *)
Definition read_inputs `{PyLib} (env : Env) (args : Namespace) : P inputs :=
  if args_interactive args
     || negb (Py.truthy (args_token args) && Py.truthy (args_user args)
              && Py.truthy (args_source args))
  then
    p_print [Lit (Colors.HEADER +:+ "=== Interactive Mode ===" +:+ Colors.ENDC
                  +:+ NL)];;
    token ← or_input env (args_token args) token_prompt;
    user ← or_input env (args_user args) user_prompt;
    source ← or_input env (args_source args) source_prompt;
    branch ← (given ← or_input env (args_branch args) branch_prompt;
              mret (or_None given));
    name ← (given ← or_input env (args_name args) name_prompt;
            mret (or_None given));
    p_print [];;
    mret (token, user, source, branch, name)
  else
    mret (default "" (args_token args), default "" (args_user args),
          default "" (args_source args), args_branch args, args_name args).

Definition main `{PyLib} (env : Env) (args : Namespace) : P unit :=
  '(token, user, source, branch, name) ← read_inputs env args;
  (* Validate inputs *)
  (if negb (Py.truthy (Some token)) then
     p_print (coloured Colors.FAIL "Error: GitHub token is required");;
     p_exit 1
   else mret tt);;
  (if negb (Py.truthy (Some user)) then
     p_print (coloured Colors.FAIL "Error: Target user/organization is required");;
     p_exit 1
   else mret tt);;
  (if negb (Py.truthy (Some source)) then
     p_print (coloured Colors.FAIL "Error: Source repository URL is required");;
     p_exit 1
   else mret tt);;
  (* Create importer and run *)
  importer ← p_lift (__init__ token user source branch name);
  call_method importer (import_repo env).

(** The process as it starts. *)
Definition boot (disk : gset string) : Process :=
  {| p_fs := disk; p_calls := 0; p_log := [] |}.

(** A command that was run, whichever. *)
Definition is_command (e : event) : bool :=
  match e with
  | ERun _ _ _ => true
  | _ => false
  end.

(** The prompts of [main], in the order it shows them. *)
Definition main_prompts : list string :=
  [token_prompt; user_prompt; source_prompt; branch_prompt; name_prompt].

(** The command-line value that a prompt of [main] stands in for. *)
Definition given_for (args : Namespace) (prompt : string) : option string :=
  if String.eqb prompt token_prompt then args_token args
  else if String.eqb prompt user_prompt then args_user args
  else if String.eqb prompt source_prompt then args_source args
  else if String.eqb prompt branch_prompt then args_branch args
  else if String.eqb prompt name_prompt then args_name args
  else None.

(** A required value was obtained: given on the command line, or typed
    at its prompt and not blank. *)
Definition obtained {lib : PyLib} (given : option string) (prompt : string)
    (log : list event) : Prop :=
  Py.truthy given = true
  ∨ ∃ text, In (EInput prompt (Typed text)) log ∧ Py.strip text ≠ "".

(** The only prompt of [import_repo] is the overwrite confirmation. *)
Definition own_prompt (e : event) : bool :=
  match e with
  | EInput prompt _ => String.eqb prompt overwrite_prompt
  | _ => true
  end.

(** ** More concrete worlds, for the examples of the later sections *)

Module Cases.

(** Answers of the hosting API that [Sample.responses] does not know. *)
Definition org_body : string :=
  "{" +:+ Sample.quoted "login" +:+ ": " +:+ Sample.quoted "acme" +:+ ", "
  +:+ Sample.quoted "type" +:+ ": " +:+ Sample.quoted "Organization" +:+ "}".

Definition null_body : string := "null".

Definition id_only_body : string := "{" +:+ Sample.quoted "id" +:+ ": 7}".

Definition responses : list (string * pyval) :=
  (Sample.responses
   ++ [(org_body, PyDict [("login", PyStr "acme"); ("type", PyStr "Organization")]);
       (null_body, PyNone);
       (id_only_body, PyDict [("id", PyInt 7)])])%list.

Definition lib : PyLib :=
  {| urlparse := Sample.urlparse_plain;
     json_loads := Sample.decode_table responses;
     json_raises := λ _, NotJson;
     str_strip := Sample.strip; str_lower := Sample.lower;
     decode := Sample.decode_ascii |}.

(** Bytes that no text is made of in the locale of the examples. *)
Definition garbled_bytes : string := String (ascii_of_nat 255) "".

(** The repository exists already and the user answers yes, loudly. *)
Definition confirmed : Sample.script :=
  {| Sample.validate_status := "200"; Sample.probe_status := "200";
     Sample.lookup_body := Sample.user_body;
     Sample.create_body := Sample.created_body; Sample.typed := " YES ";
     Sample.clone_reply := Exited 0 "" "";
     Sample.push_reply := Exited 0 "" "" |}.

(** A script that differs from [Sample.happy] in the two bodies. *)
Definition with_bodies (lookup create : string) : Sample.script :=
  {| Sample.validate_status := "200"; Sample.probe_status := "404";
     Sample.lookup_body := lookup; Sample.create_body := create;
     Sample.typed := "";
     Sample.clone_reply := Exited 0 "" "";
     Sample.push_reply := Exited 0 "" "" |}.

(** A script that differs from [Sample.happy] in the clone and the push. *)
Definition with_transfer (clone push : child) : Sample.script :=
  {| Sample.validate_status := "200"; Sample.probe_status := "404";
     Sample.lookup_body := Sample.user_body;
     Sample.create_body := Sample.created_body; Sample.typed := "";
     Sample.clone_reply := clone; Sample.push_reply := push |}.

(** A world in which some commands answer differently. *)
Definition override (base : Env) (special : command → option child) : Env :=
  {| getpid := getpid base;
     run_reply := λ n cmd, default (run_reply base n cmd) (special cmd);
     input_reply_of := input_reply_of base;
     clone_leaves_dir := clone_leaves_dir base;
     reparsed := reparsed base |}.

(** [git] is not installed. *)
Definition without_git : Env :=
  override (Sample.world Sample.happy)
    (λ cmd, match cmd with
            | Which dep =>
                if String.eqb dep "git" then Some (Exited 1 "" "") else None
            | _ => None
            end).

(** The default-branch update cannot reach the hosting service. *)
Definition unreachable_for_update : Env :=
  override (Sample.world Sample.happy)
    (λ cmd, if is_curl_with PATCH cmd
            then Some (Exited 7 "" "curl: (7) Failed to connect")
            else None).

(** A shell that splits an [rm -rf] at its blanks and removes each
    piece. *)
Definition word_splitting (base : Env) : Env :=
  {| getpid := getpid base;
     run_reply := run_reply base;
     input_reply_of := input_reply_of base;
     clone_leaves_dir := clone_leaves_dir base;
     reparsed := λ cmd disk,
       match cmd with
       | RmRf d => disk ∖ list_to_set (Py.split " " d)
       | _ => disk
       end |}.

(** A job whose repository name has a blank in it. *)
Definition spaced_job : GitHubImporter :=
  {| token := "tok"; target_user := "alice"; source_url := Sample.source;
     custom_branch := None; repo_name := "my repo"; temp_dir := None |}.
Definition spaced_staging : string := "/tmp/git-import-my repo-4242".

(** Command lines: everything given, and nothing given. *)
Definition all_flags : Namespace :=
  {| args_token := Some "tok"; args_user := Some "alice";
     args_source := Some Sample.source; args_branch := None;
     args_name := None; args_interactive := false |}.

Definition no_flags : Namespace :=
  {| args_token := None; args_user := None; args_source := None;
     args_branch := None; args_name := None; args_interactive := false |}.

End Cases.

(** ** Vocabulary of the statements about runs *)

(** [s] starts with [start] *)
Fixpoint starts_with (start s : string) : bool :=
  match start, s with
  | EmptyString, _ => true
  | String a start', String b s' => Ascii.eqb a b && starts_with start' s'
  | String _ _, EmptyString => false
  end.

(** One printed line of plain text. *)
Definition is_line (line : list fpart) (e : event) : bool :=
  match e, line with
  | EPrint [Lit s], [Lit s'] => String.eqb s s'
  | _, _ => false
  end.

(** The first thing [_create_github_repo] and [_clone_source_repo] do is
    to announce themselves: these lines mark the start of the creation
    step and of the clone phase. *)
Definition is_creation_start (e : event) : bool := is_line creating_line e.
Definition is_clone_start (e : event) : bool := is_line cloning_line e.

(** What [_create_github_repo] prints when the user-type lookup does
    not decode. *)
Definition lookup_failed_line : list fpart :=
  coloured Colors.FAIL "Failed to check if target is organization or user".

(** The token-validation request, the destination probe and the
    user-type lookup, told apart by what they ask for. *)
Definition is_validation (e : event) : bool :=
  is_run (λ cmd, match cmd with
                 | Curl c => curl_status_only c
                             && String.eqb (curl_url c) "https://api.github.com/user"
                 | _ => false
                 end) e.

Definition is_probe (e : event) : bool :=
  is_run (λ cmd, match cmd with
                 | Curl c => curl_status_only c
                             && starts_with "https://api.github.com/repos/" (curl_url c)
                 | _ => false
                 end) e.

(** The user-type lookup is the one [GET] that reads the body. *)
Definition is_lookup (e : event) : bool :=
  is_run (λ cmd, match cmd with
                 | Curl c => is_curl_with GET cmd && negb (curl_status_only c)
                 | _ => false
                 end) e.

Definition is_prompt (e : event) : bool :=
  match e with
  | EInput _ _ => true
  | _ => false
  end.

(** A request whose answer the code hands to [json.loads]. *)
Definition is_decoded (e : event) : bool := is_lookup e || is_create e.

(** A command whose output could not be decoded. *)
Definition is_unreadable (e : event) : bool :=
  match e with
  | ERun _ _ (Undecodable _) => true
  | _ => false
  end.

(** A creation request sent to [endpoint]. *)
Definition create_targets (endpoint : string) (e : event) : bool :=
  is_run (λ cmd, match cmd with
                 | Curl c => is_curl_with POST cmd && String.eqb (curl_url c) endpoint
                 | _ => false
                 end) e.

(** Events that only the steps before the clone phase produce, and
    events that only the clone phase and what follows it produce. *)
Definition prefix_event (e : event) : bool :=
  match e with
  | EPrint _ => negb (is_clone_start e)
  | ERun (Which _) _ _ => true
  | ERun (Curl c) _ _ => negb (is_curl_with PATCH (Curl c))
  | ERun _ _ _ => false
  | EInput _ _ => true
  end.

Definition tail_event (e : event) : bool :=
  match e with
  | EPrint _ => negb (is_creation_start e)
  | ERun (Which _) _ _ => false
  | ERun (Curl c) _ _ => is_curl_with PATCH (Curl c)
  | ERun _ _ _ => true
  | EInput _ _ => false
  end.

(** ** Tools for following a run *)

(** [wp m Q st]: running [m] from [st] ends in a result and a state
    that satisfy [Q]. *)
Definition wp {A} (m : M A) (Q : result A → State → Prop) (st : State) : Prop :=
  Q (m st).1 (m st).2.

(** A state whose log is given newest first. *)
Definition mk (s : GitHubImporter) (disk : gset string) (n : nat)
    (newest_first : list event) : State :=
  {| self := s; fs := disk; calls := n; log := rev newest_first |}.

(** What [_run_command] prints about a failed command, newest first. *)
Definition blame (cmd : command) (e : exn) (shown : option string) : list event :=
  match shown with
  | Some text => [EPrint (coloured Colors.FAIL ("Error output: " +:+ text))]
  | None => []
  end ++
  [EPrint [Lit Colors.FAIL; OfExn e; Lit Colors.ENDC];
   EPrint [Lit (Colors.FAIL +:+ "Error executing command: "); OfCommand cmd;
           Lit Colors.ENDC]].

Definition cwd_exists (cwd : option string) (disk : gset string) : bool :=
  match cwd with
  | Some d => bool_decide (d ∈ disk)
  | None => true
  end.

(** What is left to do once the [try] block of [import_repo] has ended
    with [r]: the [except] clauses, then [_cleanup]. *)
Definition fin `{PyLib} (env : Env) (Q : result unit → State → Prop)
    (r : result unit) (st : State) : Prop :=
  wp (try_finally (try_except (lift r) on_error) (_cleanup env)) Q st.

(** The outcome of [import_repo] when its [try] block ends with [r]
    and [_cleanup] has nothing to remove, and what the [except]
    clauses print on the way. *)
Definition finished (r : result unit) : result unit :=
  match r with
  | Ok _ => Ok ()
  | Raise (SystemExit code) => Raise (SystemExit code)
  | Raise _ => Raise (SystemExit 1)
  end.

Definition handler_events (r : result unit) : list event :=
  match r with
  | Ok _ | Raise (SystemExit _) => []
  | Raise KeyboardInterrupt =>
      [EPrint [Lit (NL +:+ Colors.WARNING +:+ "Import cancelled by user"
                    +:+ Colors.ENDC)]]
  | Raise e =>
      [EPrint [Lit (NL +:+ Colors.FAIL +:+ "Unexpected error: "); OfExn e;
               Lit Colors.ENDC]]
  end.

(** The end of the [try] block of [import_repo], from the clone on, for
    the importer [self]. *)
Definition transfer_steps `{PyLib} (env : Env) (self : GitHubImporter) : M unit :=
  _clone_source_repo env;;
  _push_to_github env;;
  print [];;
  print (coloured Colors.OKGREEN rule50);;
  print (coloured Colors.OKGREEN "Import completed successfully!");;
  print (coloured Colors.OKGREEN
           ("Repository URL: https://github.com/" +:+ target_user self
            +:+ "/" +:+ repo_name self));;
  print (coloured Colors.OKGREEN rule50).

(** ** More vocabulary for statements about runs *)

Definition is_which (e : event) : bool :=
  is_run (λ cmd, match cmd with Which _ => true | _ => false end) e.

(** The tools [_check_dependencies] found missing, given the exit codes
    of [which git] and [which curl]. *)
Definition missing_of (rc_git rc_curl : Z) : list string :=
  ((if (rc_git =? 0)%Z then [] else ["git"])
   ++ (if (rc_curl =? 0)%Z then [] else ["curl"]))%list.

(** Any external call other than the two [which] and the token
    validation. *)
Definition needs_token (e : event) : bool :=
  is_call e && negb (is_which e) && negb (is_validation e).

Definition success_line : list fpart :=
  coloured Colors.OKGREEN "Import completed successfully!".

(** How a run that entered the clone phase can end, [evs] being the
    events from then on: with the import done,
    with [sys.exit(1)], or with what the [rm -rf] of [_cleanup] raised
    in the [finally] block. *)
Definition transfer_outcome (dir : string) (push : command)
    (r : result unit) (evs : list event) : Prop :=
  match r with
  | Ok _ =>
      In (EPrint success_line) evs
      ∧ ∃ out err, In (ERun push (Some dir) (Completed 0 out err)) evs
  | Raise (SystemExit code) => code = 1
  | Raise KeyboardInterrupt => In (ERun (RmRf dir) None Interrupted) evs
  | Raise (CalledProcessError cmd rc _) =>
      cmd = RmRf dir ∧ rc ≠ 0
      ∧ ∃ out err, In (ERun (RmRf dir) None (Completed rc out err)) evs
  | Raise _ => False
  end.

(** The ways [import_repo] can end, read off the result and the log:
    it returns after a push that succeeded and the closing lines; it
    leaves with [sys.exit(0)] after the user declined to overwrite, or
    with [sys.exit(1)]; or what the [rm -rf] of [_cleanup] raised
    leaves the [finally] block. *)
Definition run_outcome `{PyLib} (dir : string) (push : command)
    (r : result unit) (log : list event) : Prop :=
  match r with
  | Raise (SystemExit 0) =>
      ∃ text, In (EInput overwrite_prompt (Typed text)) log
              ∧ Py.lower (Py.strip text) ≠ "yes"
  | _ => transfer_outcome dir push r log
  end.


(** A call that Ctrl-C cut short. *)
Definition is_interrupted (e : event) : bool :=
  match e with
  | ERun _ _ Interrupted | EInput _ InputInterrupted => true
  | _ => false
  end.

(** What the [except KeyboardInterrupt] clause of [import_repo] prints. *)
Definition cancelled_line : list fpart :=
  [Lit (NL +:+ Colors.WARNING +:+ "Import cancelled by user" +:+ Colors.ENDC)].
(** * Facts about the string helpers *)

Section StringFacts.

Lemma str_app_cons c a b : String c a +:+ b = String c (a +:+ b).
Proof. reflexivity. Qed.

Lemma str_app_nil_l b : "" +:+ b = b.
Proof. reflexivity. Qed.

Lemma str_app_nil_r a : a +:+ "" = a.
Proof. induction a as [|c a IH]; [done|]. by rewrite str_app_cons, IH. Qed.

Lemma str_app_assoc a b c : (a +:+ b) +:+ c = a +:+ (b +:+ c).
Proof. induction a as [|x a IH]; [done|]. by rewrite !str_app_cons, IH. Qed.

Lemma str_length_app a b : String.length (a +:+ b) = (String.length a + String.length b)%nat.
Proof. induction a as [|x a IH]; [done|]. rewrite str_app_cons. simpl. by rewrite IH. Qed.

Lemma str_app_eq_nil a b : a +:+ b = "" → a = "" ∧ b = "".
Proof. destruct a; [done|]. rewrite str_app_cons. discriminate. Qed.

Lemma has_char_app c a b : has_char c (a +:+ b) = has_char c a || has_char c b.
Proof.
  induction a as [|x a IH]; [done|].
  rewrite str_app_cons. simpl. rewrite IH. by rewrite orb_assoc.
Qed.

(** *** rstrip *)

Lemma rstrip_by_all p t :
  (∀ c, has_char c t = true → p c = true) → Py.rstrip_by p t = "".
Proof.
  induction t as [|x t IH]; intros Hall; [done|].
  simpl. rewrite IH.
  - rewrite (Hall x); [done|]. simpl. by rewrite Ascii.eqb_refl.
  - intros c Hc. apply Hall. simpl. rewrite Hc. apply orb_true_r.
Qed.

Lemma rstrip_by_app_strippable p b t :
  Py.rstrip_by p t = "" → Py.rstrip_by p (b +:+ t) = Py.rstrip_by p b.
Proof.
  intros Ht. induction b as [|x b IH]; [done|].
  rewrite str_app_cons. simpl. by rewrite IH.
Qed.

Lemma rstrip_by_keeps p s :
  s ≠ "" → (∀ c, has_char c s = true → p c = false) → Py.rstrip_by p s = s.
Proof.
  induction s as [|x s IH]; intros Hne Hno; [done|].
  simpl. destruct s as [|y s].
  - simpl. rewrite (Hno x); [done|]. simpl. by rewrite Ascii.eqb_refl.
  - rewrite IH; [done|done|].
    intros c Hc. apply Hno. change (has_char c (String x (String y s)))
      with (Ascii.eqb x c || has_char c (String y s)).
    rewrite Hc. apply orb_true_r.
Qed.

Lemma rstrip_by_app_kept p a b :
  Py.rstrip_by p b ≠ "" → Py.rstrip_by p (a +:+ b) = a +:+ Py.rstrip_by p b.
Proof.
  intros Hb. induction a as [|x a IH]; [done|].
  rewrite !str_app_cons. simpl. rewrite IH.
  destruct (a +:+ Py.rstrip_by p b) eqn:E; [|done].
  apply str_app_eq_nil in E as [_ E]. done.
Qed.

Lemma char_in_slash c : Py.char_in c "/" = Ascii.eqb c "/".
Proof. simpl. apply orb_false_r. Qed.

Lemma slash_free_not_in seg c :
  has_char "/" seg = false → has_char c seg = true → Py.char_in c "/" = false.
Proof.
  intros Hno Hc. rewrite char_in_slash.
  destruct (Ascii.eqb_spec c "/") as [->|]; [congruence|done].
Qed.

(** *** endswith and slicing *)

Lemma endswith_app a suffix : Py.endswith (a +:+ suffix) suffix = true.
Proof.
  induction a as [|x a IH].
  - rewrite str_app_nil_l. destruct suffix; simpl; rewrite ?String.eqb_refl, ?Ascii.eqb_refl; done.
  - rewrite str_app_cons. simpl. rewrite IH. apply orb_true_r.
Qed.

Lemma endswith_inv s suffix :
  Py.endswith s suffix = true → ∃ a, s = a +:+ suffix.
Proof.
  induction s as [|x s IH]; intros H.
  - exists "". destruct suffix; [done|]. simpl in H. done.
  - change (Py.endswith (String x s) suffix)
      with (String.eqb (String x s) suffix || Py.endswith s suffix) in H.
    apply orb_true_iff in H as [H|H].
    + apply String.eqb_eq in H. exists "". by rewrite str_app_nil_l.
    + destruct (IH H) as [a ->]. exists (String x a). by rewrite str_app_cons.
Qed.

Lemma drop_last_app a suffix :
  Py.drop_last (String.length suffix) (a +:+ suffix) = a.
Proof.
  unfold Py.drop_last. rewrite str_length_app.
  replace (String.length a + String.length suffix - String.length suffix)%nat
    with (String.length a) by lia.
  induction a as [|x a IH].
  - rewrite str_app_nil_l. by destruct suffix.
  - rewrite str_app_cons. simpl. by rewrite IH.
Qed.

(** *** split *)

Lemma split_cons_ne sep c s :
  Ascii.eqb c sep = false →
  ∃ piece rest, Py.split sep s = piece :: rest
                ∧ Py.split sep (String c s) = String c piece :: rest.
Proof.
  intros Hc. simpl. rewrite Hc.
  assert (∃ piece rest, Py.split sep s = piece :: rest) as (piece & rest & E).
  { destruct s as [|y s]; simpl; [eauto|].
    destruct (Ascii.eqb y sep); [eauto|]. destruct (Py.split sep s); eauto. }
  rewrite E. eauto.
Qed.

Lemma split_slash_free sep s : has_char sep s = false → Py.split sep s = [s].
Proof.
  induction s as [|x s IH]; [done|]. simpl. intros H.
  apply orb_false_iff in H as [Hx Hs].
  rewrite Hx, IH; done.
Qed.

Lemma split_app sep a b :
  Py.split sep (a +:+ String sep b) = (Py.split sep a ++ Py.split sep b)%list.
Proof.
  induction a as [|x a IH].
  - rewrite str_app_nil_l. simpl. by rewrite Ascii.eqb_refl.
  - rewrite str_app_cons. destruct (Ascii.eqb x sep) eqn:Hx.
    + simpl. rewrite Hx, IH. done.
    + destruct (split_cons_ne sep x a Hx) as (piece & rest & E1 & E2).
      rewrite E2. simpl. rewrite Hx, IH, E1. done.
Qed.

Lemma last_split_dir dir seg :
  dir_part dir → has_char "/" seg = false →
  last (Py.split "/" (dir +:+ seg)) = Some seg.
Proof.
  intros [->|[d ->]] Hseg.
  - rewrite str_app_nil_l, split_slash_free; done.
  - rewrite str_app_assoc. change ("/" +:+ seg) with (String "/" seg).
    rewrite split_app, last_app, split_slash_free; done.
Qed.

End StringFacts.

(** * Deriving the repository name *)

Section NameFacts.
Context {lib : PyLib}.

Lemma dir_part_tail c dir : dir_part (String c dir) → dir_part dir.
Proof.
  intros [?|[d E]]; [done|]. destruct d as [|x d].
  - change (String c dir = "/") in E. injection E as _ ->. by left.
  - change (String c dir = String x (d +:+ "/")) in E. injection E as _ ->.
    right. by exists d.
Qed.

Lemma dir_part_has_slash c dir : dir_part (String c dir) → has_char "/" (String c dir) = true.
Proof.
  intros [?|[d ->]]; [done|]. rewrite has_char_app. simpl. apply orb_true_r.
Qed.

(** A suffix without a slash that ends the path ends its final segment. *)
Lemma endswith_final_segment dir seg suffix :
  dir_part dir → has_char "/" suffix = false →
  Py.endswith (dir +:+ seg) suffix = true → Py.endswith seg suffix = true.
Proof.
  intros Hdir Hsuffix. induction dir as [|c dir IH]; [done|].
  rewrite str_app_cons.
  change (Py.endswith (String c (dir +:+ seg)) suffix)
    with (String.eqb (String c (dir +:+ seg)) suffix || Py.endswith (dir +:+ seg) suffix).
  intros [E|E]%orb_true_iff.
  - apply String.eqb_eq in E. pose proof (dir_part_has_slash _ _ Hdir) as Hs.
    rewrite <- E, <- str_app_cons, has_char_app, Hs in Hsuffix. done.
  - apply IH; [by eapply dir_part_tail|done].
Qed.

Lemma slashes_only n c : has_char c (slashes n) = true → Py.char_in c "/" = true.
Proof.
  rewrite char_in_slash. induction n as [|n IH]; [done|]. simpl.
  intros [Hc|Hc]%orb_true_iff; [|by apply IH].
  by rewrite Ascii.eqb_sym.
Qed.

Lemma rstrip_slashes n : Py.rstrip "/" (slashes n) = "".
Proof. apply rstrip_by_all. intros c. apply slashes_only. Qed.

Lemma rstrip_final_segment dir seg n :
  has_char "/" seg = false → seg ≠ "" →
  Py.rstrip "/" (dir +:+ seg +:+ slashes n) = dir +:+ seg.
Proof.
  intros Hseg Hne. unfold Py.rstrip.
  rewrite <- (str_app_assoc dir seg (slashes n)), rstrip_by_app_strippable.
  - rewrite rstrip_by_app_kept; rewrite rstrip_by_keeps; try done.
    all: intros c Hc; by eapply slash_free_not_in.
  - apply rstrip_slashes.
Qed.

(** What [_extract_repo_name] computes, read off the parsed path. *)
Lemma extract_from_path url parsed dir seg n name :
  urlparse url = Ok parsed →
  path parsed = dir +:+ seg +:+ slashes n →
  dir_part dir → has_char "/" seg = false → seg ≠ "" →
  without_git_suffix seg name →
  _extract_repo_name url
  = if String.eqb name "" then Raise no_repo_name else Ok name.
Proof.
  intros Hparse Hpath Hdir Hseg Hne Hname.
  unfold _extract_repo_name. rewrite Hparse. cbn [mbind result_bind].
  rewrite Hpath, rstrip_final_segment by done.
  destruct Hname as [->|[-> Hnone]].
  - rewrite has_char_app in Hseg. apply orb_false_iff in Hseg as [Hname _].
    rewrite <- (str_app_assoc dir name ".git"), endswith_app.
    change 4%nat with (String.length ".git"). rewrite drop_last_app.
    by rewrite last_split_dir.
  - destruct (Py.endswith (dir +:+ seg) ".git") eqn:E.
    + apply endswith_final_segment in E; [|done..].
      apply endswith_inv in E as [stem E]. by destruct (Hnone stem).
    + by rewrite last_split_dir.
Qed.

Lemma init_without_override t u url b override :
  Py.truthy override = false →
  __init__ t u url b override
  = name ← _extract_repo_name url; Ok (importer t u url b name).
Proof. intros H. unfold __init__. by rewrite H. Qed.

Lemma not_empty_eqb name : name ≠ "" → String.eqb name "" = false.
Proof. intros H. by apply String.eqb_neq. Qed.

End NameFacts.

(** * Following a run step by step *)

Section Rules.
Context {lib : PyLib} (env : Env).

Lemma wp_ret {A} (a : A) Q st : Q (Ok a) st → wp (mret a) Q st.
Proof. done. Qed.

Lemma wp_raise {A} e (Q : result A → State → Prop) st :
  Q (Raise e) st → wp (raise e) Q st.
Proof. done. Qed.

Lemma wp_sys_exit {A} code (Q : result A → State → Prop) st :
  Q (Raise (SystemExit code)) st → wp (sys_exit code) Q st.
Proof. done. Qed.

Lemma wp_lift {A} (r : result A) Q st : Q r st → wp (lift r) Q st.
Proof. done. Qed.

Lemma wp_bind {A B} (m : M A) (f : A → M B) Q st :
  wp m (λ r st', match r with
                 | Ok a => wp (f a) Q st'
                 | Raise e => Q (Raise e) st'
                 end) st →
  wp (m ≫= f) Q st.
Proof. unfold wp, mbind, M_bind. by destruct (m st) as [[a|e] st']. Qed.

Lemma wp_try_except {A} (body : M A) handler Q st :
  wp body (λ r st', match r with
                    | Ok a => Q (Ok a) st'
                    | Raise e =>
                        match handler e with
                        | Some h => wp h Q st'
                        | None => Q (Raise e) st'
                        end
                    end) st →
  wp (try_except body handler) Q st.
Proof.
  unfold wp, try_except. destruct (body st) as [[a|e] st']; [done|].
  simpl. by destruct (handler e).
Qed.

Lemma wp_try_finally {A} (body : M A) final Q st :
  wp body (λ r st', wp final (λ r' st'', match r' with
                                         | Ok _ => Q r st''
                                         | Raise e => Q (Raise e) st''
                                         end) st') st →
  wp (try_finally body final) Q st.
Proof.
  unfold wp, try_finally. destruct (body st) as [r st']. simpl.
  by destruct (final st') as [[[]|e] st''].
Qed.

Lemma wp_print line Q s disk n acc :
  Q (Ok ()) (mk s disk n (EPrint line :: acc)) → wp (print line) Q (mk s disk n acc).
Proof. done. Qed.

Lemma wp_get_self Q s disk n acc :
  Q (Ok s) (mk s disk n acc) → wp get_self Q (mk s disk n acc).
Proof. done. Qed.

Lemma wp_set_temp_dir d Q s disk n acc :
  Q (Ok ())
    (mk {| token := token s; target_user := target_user s;
           source_url := source_url s; custom_branch := custom_branch s;
           repo_name := repo_name s; temp_dir := d |} disk n acc) →
  wp (set_temp_dir d) Q (mk s disk n acc).
Proof. done. Qed.

Lemma wp_os_path_exists p Q s disk n acc :
  Q (Ok (bool_decide (p ∈ disk))) (mk s disk n acc) →
  wp (os_path_exists p) Q (mk s disk n acc).
Proof. done. Qed.

Lemma wp_input prompt Q s disk n acc :
  (∀ r, input_reply_of env n prompt = r →
        Q match r with
          | Typed text => Ok text
          | InputEOF => Raise EOFError
          | InputInterrupted => Raise KeyboardInterrupt
          end
          (mk s disk (S n) (EInput prompt r :: acc))) →
  wp (input env prompt) Q (mk s disk n acc).
Proof.
  unfold wp, input, mk. intros Hr. cbn [calls self fs log].
  specialize (Hr _ eq_refl). by destruct (input_reply_of env n prompt).
Qed.

Lemma wp_subprocess_run cmd cwd (capture : bool) Q s disk n acc :
  (cwd_exists cwd disk = false →
   Q (Raise (FileNotFoundError (default "" cwd))) (mk s disk n acc)) →
  (∀ r,
     cwd_exists cwd disk = true →
     receive capture (run_reply env n cmd) = r →
     let captured (text : string) := if capture then Some text else None in
     Q match r with
       | Completed rc out err =>
           if (rc =? 0)%Z
           then Ok {| returncode := rc; stdout := captured out;
                      stderr := captured err |}
           else Raise (CalledProcessError cmd rc (captured err))
       | Interrupted => Raise KeyboardInterrupt
       | Undecodable _ => Raise UnicodeDecodeError
       end
       (mk s (fs_after env cmd r disk) (S n) (ERun cmd cwd r :: acc))) →
  wp (subprocess_run env cmd cwd true capture) Q (mk s disk n acc).
Proof.
  intros Hmissing Hrun. unfold wp, subprocess_run, mk. cbn [calls self fs log].
  destruct (cwd_exists cwd disk) eqn:Hcwd.
  - assert (match cwd with
            | Some d => negb (bool_decide (d ∈ disk))
            | None => false
            end = false) as ->.
    { destruct cwd; simpl in *; [|done]. by rewrite Hcwd. }
    specialize (Hrun _ eq_refl eq_refl). cbv zeta in Hrun.
    destruct (receive capture (run_reply env n cmd)) as [rc out err| |rc];
      [|exact Hrun..].
    cbn [andb negb]. by destruct (rc =? 0)%Z.
  - assert (match cwd with
            | Some d => negb (bool_decide (d ∈ disk))
            | None => false
            end = true) as ->.
    { destruct cwd; simpl in *; [|done]. by rewrite Hcwd. }
    by apply Hmissing.
Qed.

Lemma fs_after_done cmd out err disk :
  fs_after env cmd (Completed 0 out err) disk = fs_done env cmd disk.
Proof. reflexivity. Qed.

Lemma fs_after_failed cmd rc out err disk :
  rc ≠ 0%Z → fs_after env cmd (Completed rc out err) disk = fs_cut_short env cmd disk.
Proof. intros Hrc%Z.eqb_neq. unfold fs_after. by rewrite Hrc. Qed.

(** [_run_command] with [check=True]: the working directory is missing,
    or it returns the output, or it reports the failed command and
    raises, or it is interrupted, or the output cannot be decoded. *)
Lemma wp_run_command cmd cwd (capture : bool) Q s disk n acc :
  (cwd_exists cwd disk = false →
   Q (Raise (FileNotFoundError (default "" cwd))) (mk s disk n acc)) →
  (∀ out err,
     cwd_exists cwd disk = true →
     receive capture (run_reply env n cmd) = Completed 0 out err →
     Q (Ok (if capture then Some (Py.strip out) else None))
       (mk s (fs_done env cmd disk) (S n)
          (ERun cmd cwd (Completed 0 out err) :: acc))) →
  (∀ rc out err shown,
     cwd_exists cwd disk = true →
     rc ≠ 0%Z →
     receive capture (run_reply env n cmd) = Completed rc out err →
     (if capture then shown = None ∨ shown = Some err else shown = None) →
     let e := CalledProcessError cmd rc (if capture then Some err else None) in
     Q (Raise e)
       (mk s (fs_cut_short env cmd disk) (S n)
          (blame cmd e shown ++ ERun cmd cwd (Completed rc out err) :: acc))) →
  (cwd_exists cwd disk = true →
   receive capture (run_reply env n cmd) = Interrupted →
   Q (Raise KeyboardInterrupt)
     (mk s (fs_cut_short env cmd disk) (S n) (ERun cmd cwd Interrupted :: acc))) →
  (∀ rc,
     cwd_exists cwd disk = true →
     receive capture (run_reply env n cmd) = Undecodable rc →
     Q (Raise UnicodeDecodeError)
       (mk s (fs_cut_short env cmd disk) (S n)
          (ERun cmd cwd (Undecodable rc) :: acc))) →
  wp (_run_command env cmd cwd true capture) Q (mk s disk n acc).
Proof.
  intros Hmissing Hok Hfail Hint Hund.
  unfold _run_command. apply wp_try_except.
  destruct capture.
  - apply wp_bind, wp_subprocess_run; [done|].
    intros [rc out err| |rc] Hcwd R; cbv zeta; [|by apply Hint|by apply Hund].
    destruct (Z.eqb_spec rc 0) as [->|Hrc]; [by apply wp_ret, Hok|].
    rewrite fs_after_failed by done.
    apply wp_bind, wp_print. cbv beta iota. apply wp_bind, wp_print. cbv beta iota.
    apply wp_bind. cbn [andb].
    destruct (Py.truthy (Some err)) eqn:T.
    + apply wp_print. cbv beta iota. apply wp_raise.
      apply (Hfail rc out err (Some err)); auto.
    + apply wp_ret. cbv beta iota. apply wp_raise.
      apply (Hfail rc out err None); auto.
  - apply wp_bind, wp_subprocess_run; [done|].
    intros [rc out err| |rc] Hcwd R; cbv zeta; [|by apply Hint|by apply Hund].
    destruct (Z.eqb_spec rc 0) as [->|Hrc]; [by apply wp_ret, Hok|].
    rewrite fs_after_failed by done.
    apply wp_bind, wp_print. cbv beta iota. apply wp_bind, wp_print. cbv beta iota.
    apply wp_bind. cbn [andb]. apply wp_ret. cbv beta iota. apply wp_raise.
    apply (Hfail rc out err None); auto.
Qed.

Lemma receive_uncaptured c rc : receive false c ≠ Undecodable rc.
Proof. by destruct c. Qed.

(** The same for a command whose output is not captured: there is
    nothing to decode. *)
Lemma wp_run_command_plain cmd cwd Q s disk n acc :
  (cwd_exists cwd disk = false →
   Q (Raise (FileNotFoundError (default "" cwd))) (mk s disk n acc)) →
  (∀ out err,
     cwd_exists cwd disk = true →
     Q (Ok None)
       (mk s (fs_done env cmd disk) (S n)
          (ERun cmd cwd (Completed 0 out err) :: acc))) →
  (∀ rc out err,
     cwd_exists cwd disk = true →
     rc ≠ 0%Z →
     let e := CalledProcessError cmd rc None in
     Q (Raise e)
       (mk s (fs_cut_short env cmd disk) (S n)
          (blame cmd e None ++ ERun cmd cwd (Completed rc out err) :: acc))) →
  (cwd_exists cwd disk = true →
   Q (Raise KeyboardInterrupt)
     (mk s (fs_cut_short env cmd disk) (S n) (ERun cmd cwd Interrupted :: acc))) →
  wp (_run_command env cmd cwd true false) Q (mk s disk n acc).
Proof.
  intros Hmissing Hok Hfail Hint. apply wp_run_command; auto.
  - intros rc out err shown Hcwd Hrc _ ->. by apply Hfail.
  - intros rc _ R. by destruct (receive_uncaptured _ _ R).
Qed.

(** A statement about the outcome and the final state of a run, as a
    statement about [import_repo]. *)
Lemma by_wp (P : result unit → State → Prop) s disk :
  wp (import_repo env) P (mk s disk 0 []) →
  P (import_repo env (start s disk)).1 (import_repo env (start s disk)).2.
Proof. done. Qed.

(** [import_repo] is its [try] block followed by [fin]. *)
Lemma wp_import_repo Q st :
  wp (import_steps env) (fin env Q) st → wp (import_repo env) Q st.
Proof.
  unfold fin, import_repo, wp, try_finally, try_except, lift.
  by destruct (import_steps env st) as [[[]|e] st'].
Qed.

(** Where [_cleanup] has no directory to remove, [fin] is the [except]
    clauses alone. *)
Lemma fin_nothing_to_clean Q r s disk n acc :
  temp_dir s = None →
  Q (finished r) (mk s disk n (handler_events r ++ acc)) →
  fin env Q r (mk s disk n acc).
Proof.
  destruct s as [? ? ? ? ? dir]. cbn [temp_dir]. intros -> HQ.
  unfold fin, wp, try_finally, try_except, lift, _cleanup.
  destruct r as [[]|e]; [exact HQ|].
  destruct e; exact HQ.
Qed.

Lemma truthy_staging s : Py.truthy (Some (staging_path env s)) = true.
Proof. reflexivity. Qed.

End Rules.

(** ** The ways the small pieces of Python on JSON can end *)

Lemma py_json_loads_cases `{PyLib} text :
  (∃ v, json_loads text = Some v ∧ py_json_loads (Some text) = Ok v)
  ∨ (json_loads text = None ∧ json_raises text = NotJson
     ∧ py_json_loads (Some text) = Raise JSONDecodeError)
  ∨ (json_loads text = None ∧ json_raises text = TooDeep
     ∧ py_json_loads (Some text) = Raise RecursionError)
  ∨ (∃ msg, json_loads text = None ∧ json_raises text = BadValue msg
            ∧ py_json_loads (Some text) = Raise (ValueError msg)).
Proof.
  unfold py_json_loads. destruct (json_loads text); [eauto|].
  destruct (json_raises text); eauto 10.
Qed.

Lemma py_get_cases v key :
  (∃ x, py_get v key = Ok x) ∨ py_get v key = Raise AttributeError.
Proof. destruct v; simpl; eauto. Qed.

Lemma py_contains_cases key v :
  (∃ found, py_contains key v = Ok found) ∨ py_contains key v = Raise TypeError.
Proof. destruct v; simpl; eauto. Qed.

Lemma py_getitem_cases v key :
  (∃ x, py_getitem v key = Ok x)
  ∨ py_getitem v key = Raise (KeyError key)
  ∨ py_getitem v key = Raise TypeError.
Proof. destruct v; simpl; eauto. destruct (assoc key items); eauto. Qed.

(** ** Facts about logs *)

Lemma count_app p l1 l2 : count p (l1 ++ l2) = (count p l1 + count p l2)%nat.
Proof. induction l1 as [|e l1 IH]; [done|]. simpl. rewrite IH. by destruct (p e). Qed.

Lemma count_none (p q : event → bool) l :
  (∀ e, q e = true → p e = false) → forallb q l = true → count p l = 0%nat.
Proof.
  intros Hpq. induction l as [|e l IH]; [done|]. simpl.
  intros [He Hl]%andb_true_iff. rewrite (Hpq e He). auto.
Qed.


Lemma events_before_app p l1 l2 :
  existsb p l1 = true → events_before p (l1 ++ l2) = events_before p l1.
Proof.
  induction l1 as [|e l1 IH]; [done|]. simpl.
  destruct (p e); [done|]. simpl. intros H. by rewrite IH.
Qed.

Lemma events_after_app p l1 l2 :
  existsb p l1 = true → events_after p (l1 ++ l2) = (events_after p l1 ++ l2)%list.
Proof.
  induction l1 as [|e l1 IH]; [done|]. simpl.
  destruct (p e); [done|]. simpl. intros H. by rewrite IH.
Qed.

Lemma in_forallb (q : event → bool) l e : forallb q l = true → In e l → q e = true.
Proof. intros H. by apply forallb_forall. Qed.

Lemma forallb_rev (q : event → bool) l : forallb q (rev l) = forallb q l.
Proof.
  induction l as [|e l IH]; [done|]. simpl.
  rewrite forallb_app, IH. simpl. rewrite andb_true_r. apply andb_comm.
Qed.

Lemma events_after_skip p l1 l2 :
  count p l1 = 0%nat → events_after p (l1 ++ l2) = events_after p l2.
Proof.
  induction l1 as [|e l1 IH]; [done|]. simpl. destruct (p e); [done|]. apply IH.
Qed.

Lemma in_select (p : event → bool) e l :
  p e = true → In e l → In e (List.filter p l).
Proof. intros Hp Hin. by apply filter_In. Qed.

Lemma Forall_not (q : event → bool) l :
  forallb (λ e, negb (q e)) l = true → Forall (λ e, q e = false) l.
Proof.
  intros H. apply List.Forall_forall. intros e He.
  apply (in_forallb _ _ _ H) in He. by destruct (q e).
Qed.

Lemma log_mk_app s disk n l acc : log (mk s disk n (l ++ acc)) = (rev acc ++ rev l)%list.
Proof. unfold mk. simpl. apply rev_app_distr. Qed.

(** ** Tactics *)

Ltac wp_simpl :=
  cbv beta iota zeta;
  cbn [blame handler_events finished app fs_done fs_cut_short on_error is_Exception
       token target_user source_url custom_branch repo_name temp_dir
       negb andb default from_option id fmap option_fmap option_map
       importer validate_request probe_request org_check_request create_request
       update_branch_request cwd_exists].

Ltac wp_unfold :=
  lazymatch goal with
  | |- wp (import_steps _) _ _ => unfold import_steps
  | |- wp (transfer_steps _ _) _ _ => unfold transfer_steps
  | |- wp (_check_dependencies _) _ _ => unfold _check_dependencies
  | |- wp (check_each _ _ _) _ _ => cbn [check_each]
  | |- wp (_validate_token _) _ _ => unfold _validate_token
  | |- wp (_check_repo_exists _) _ _ => unfold _check_repo_exists
  | |- wp (_create_github_repo _) _ _ => unfold _create_github_repo
  | |- wp (_clone_source_repo _) _ _ => unfold _clone_source_repo
  | |- wp (_push_to_github _) _ _ => unfold _push_to_github
  | |- wp (_cleanup _) _ _ => unfold _cleanup
  end.

(** What the check of the working directory says: nothing where there
    is none, membership where there is one. *)
Ltac cwd_fact :=
  lazymatch goal with
  | H : cwd_exists None _ = true |- _ => clear H
  | H : cwd_exists None _ = false |- _ => discriminate H
  | H : cwd_exists (Some _) _ = true |- _ =>
      apply bool_decide_eq_true_1 in H
  | H : cwd_exists (Some _) _ = false |- _ =>
      apply bool_decide_eq_false_1 in H
  end.

(** One step of a run: the rule for the statement at the head, a case
    distinction where the run branches. *)
Ltac wp_step :=
  lazymatch goal with
  | |- wp (mret _) _ _ => apply wp_ret
  | |- wp (mbind _ _) _ _ => apply wp_bind
  | |- wp (raise _) _ _ => apply wp_raise
  | |- wp (sys_exit _) _ _ => apply wp_sys_exit
  | |- wp (lift (py_json_loads (Some ?text))) _ _ =>
      let J := fresh "J" in
      let G := fresh "G" in
      let F := fresh "F" in
      apply wp_lift;
      destruct (py_json_loads_cases text)
        as [(?v & J & G)|[(J & F & G)|[(J & F & G)|(?msg & J & F & G)]]];
      rewrite G
  | |- wp (lift (py_get ?v ?key)) _ _ =>
      let G := fresh "G" in
      apply wp_lift; destruct (py_get_cases v key) as [[?x G]|G]; rewrite G
  | |- wp (lift (py_contains ?key ?v)) _ _ =>
      let G := fresh "G" in
      apply wp_lift; destruct (py_contains_cases key v) as [[?found G]|G]; rewrite G
  | |- wp (lift (py_getitem ?v ?key)) _ _ =>
      let G := fresh "G" in
      apply wp_lift; destruct (py_getitem_cases v key) as [[?x G]|[G|G]]; rewrite G
  | |- wp (lift _) _ _ => apply wp_lift
  | |- wp (try_except _ _) _ _ => apply wp_try_except
  | |- wp (try_finally _ _) _ _ => apply wp_try_finally
  | |- wp (print _) _ _ => apply wp_print
  | |- wp get_self _ _ => apply wp_get_self
  | |- wp (set_temp_dir _) _ _ => apply wp_set_temp_dir
  | |- wp (os_path_exists _) _ _ => apply wp_os_path_exists
  | |- wp (input _ _) _ _ => apply wp_input; intros [?text| |] ?
  | |- wp (_run_command _ _ _ true true) _ _ =>
      apply wp_run_command;
      [ intros ?Hcwd
      | intros ?out ?err ?Hcwd ?
      | intros ?rc ?out ?err ?shown ?Hcwd ? ? [->| ->]
      | intros ?Hcwd ?
      | intros ?rc ?Hcwd ? ];
      cwd_fact
  | |- wp (_run_command _ _ _ true false) _ _ =>
      apply wp_run_command_plain;
      [ intros ?Hcwd
      | intros ?out ?err ?Hcwd
      | intros ?rc ?out ?err ?Hcwd ?
      | intros ?Hcwd ];
      cwd_fact
  | |- wp (if Py.truthy (Some (staging_path ?env ?s)) then _ else _) _ _ =>
      rewrite (truthy_staging env s)
  | |- wp (if bool_decide (?a ≠ ?b) then _ else _) _ _ =>
      let E := fresh "E" in
      destruct (decide (a = b)) as [E|E];
      [ rewrite (bool_decide_eq_false_2 (a ≠ b)) by (intros ?; done)
      | rewrite (bool_decide_eq_true_2 (a ≠ b)) by done ]
  | |- wp (if bool_decide ?P then _ else _) _ _ =>
      destruct (bool_decide_reflect P)
  | |- wp (if ?c then _ else _) _ _ =>
      let T := fresh "T" in destruct c eqn:T
  | |- wp (match ?x with _ => _ end) _ _ =>
      let T := fresh "T" in destruct x eqn:T
  | |- wp _ _ _ => wp_unfold
  | |- fin _ _ _ _ => unfold fin
  | |- match ?x with _ => _ end =>
      let T := fresh "T" in destruct x eqn:T
  end; wp_simpl.

Ltac front_of l acc :=
  lazymatch l with
  | acc => constr:(@nil event)
  | ?e :: ?r => let f := front_of r acc in constr:(e :: f)
  end.

(** The events of a known log that the hypothesis [H : In e log] can
    speak of, [p] being a test that [e] passes. *)
Ltac pick p H :=
  apply (in_select p) in H; [|vm_compute; reflexivity];
  vm_compute in H;
  repeat match type of H with
         | _ ∨ _ => destruct H as [H|H]
         | False => destruct H
         end.

(** [In e log] for an event that stands in a known log. *)
Ltac find_in :=
  unfold mk; cbn [log rev app In];
  repeat first [ left; reflexivity | right ].

(** The same for a log that ends in events of the clone phase: [e] is
    not one of those. *)
Ltac pick_before p H Hlog Hall :=
  rewrite Hlog in H; apply in_app_or in H as [H|H];
  [ pick p H
  | apply (in_forallb _ _ _ Hall) in H; vm_compute in H; discriminate H ].

(** Turn a goal about [import_repo env (start s disk)] into one about
    its [try] block. *)
Ltac follow_run :=
  cbv zeta;
  lazymatch goal with
  | |- context [import_repo ?env (start ?s ?disk)] =>
      pattern ((import_repo env (start s disk)).1), ((import_repo env (start s disk)).2);
      apply by_wp, wp_import_repo
  end.

(** Split the log of a state reached from [acc] into the events of
    [acc] and the newer ones, oldest first. *)
Ltac split_log acc :=
  lazymatch goal with
  | |- context [log (mk ?s ?d ?n ?l)] =>
      let f := front_of l acc in
      let Hlog := fresh "Hlog" in
      pose proof (log_mk_app s d n f acc) as Hlog;
      cbn [app rev] in Hlog; rewrite Hlog; clear Hlog
  end.

(** [H : In e (rev acc ++ newer)] where [acc] holds events of the first
    steps only and [e] is not one of those. *)
Ltac pick_after p H Hacc :=
  apply in_app_or in H as [H|H];
  [ apply (in_forallb _ _ _ Hacc) in H; vm_compute in H; discriminate H
  | pick p H ].

(** Steps up to the clone phase, which is left for a lemma. *)
Ltac prefix_step :=
  lazymatch goal with
  | |- wp (mbind _ (_clone_source_repo _)) _ _ => fail
  | |- fin _ _ _ _ => fail
  | _ => wp_step
  end.

(** A run that cannot be as the goal says, because an [rm -rf] in its
    log did not exit with code 0 while [Hrm] says that all did. *)
Ltac failed_rm Hrm :=
  match goal with
  | |- context [ERun (RmRf ?d) ?cwd ?r] =>
      exfalso; destruct (Hrm cwd r) as (? & ? & ?);
      [ apply in_or_app; right; cbn [In];
        solve [repeat first [ left; reflexivity | right ]]
      | by simplify_eq ]
  end.

(** Membership in the log of a concrete run. *)
Ltac in_log := vm_compute; repeat first [ left; reflexivity | right ].

(** [H : In e log] for an event [e] known only through [He : p e = true]. *)
Ltac pick_by He H :=
  apply (in_select _ _ _ He) in H;
  vm_compute in H;
  repeat match type of H with
         | _ ∨ _ => destruct H as [H|H]
         | False => destruct H
         end.

(** * The two halves of a run *)

Lemma tail_not_creation_start e : tail_event e = true → is_creation_start e = false.
Proof. destruct e as [line|[] ? ?|]; try done. simpl. by intros ?%negb_true_iff. Qed.

Lemma tail_not_create e : tail_event e = true → is_create e = false.
Proof. destruct e as [line|[| [[] ? ? ? ?] | | |] ? ?|]; done. Qed.

Lemma tail_not_create_to endpoint e :
  tail_event e = true → create_targets endpoint e = false.
Proof. destruct e as [line|[| [[] ? ? ? ?] | | |] ? ?|]; done. Qed.

Lemma prefix_not_clone_start e : prefix_event e = true → is_clone_start e = false.
Proof. destruct e as [line|[] ? ?|]; try done. simpl. by intros ?%negb_true_iff. Qed.

Lemma prefix_not_clone e : prefix_event e = true → is_clone e = false.
Proof. by destruct e as [line|[] ? ?|]. Qed.

Lemma prefix_not_push e : prefix_event e = true → is_push e = false.
Proof. by destruct e as [line|[] ? ?|]. Qed.

Lemma prefix_not_rm e : prefix_event e = true → is_rm e = false.
Proof. by destruct e as [line|[] ? ?|]. Qed.

Lemma prefix_not_update_branch e : prefix_event e = true → is_update_branch e = false.
Proof. destruct e as [line|[| [[] ? ? ? ?] | | |] ? ?|]; done. Qed.

Lemma handler_events_prefix r : forallb prefix_event (handler_events r) = true.
Proof. destruct r as [|[]]; reflexivity. Qed.

(** The log of a run that raised before the clone phase. *)
Lemma raised_log_is_prefix r s disk n acc :
  forallb prefix_event acc = true →
  forallb prefix_event (log (mk s disk n (handler_events r ++ acc))) = true.
Proof.
  intros Hacc. unfold mk. cbn [log].
  by rewrite forallb_rev, forallb_app, handler_events_prefix.
Qed.

Section Phases.
Context {lib : PyLib} (env : Env).

(** From the clone on, whatever happens, the log only grows by events
    of the clone phase, of the [except] clauses and of [_cleanup]. *)
Lemma transfer_events Q t u src b name disk n acc :
  let s := importer t u src b name in
  (∀ r st' evs,
     log st' = (rev acc ++ evs)%list → forallb tail_event evs = true → Q r st') →
  wp (transfer_steps env s) (fin env Q) (mk s disk n acc).
Proof.
  intros s HQ. subst s.
  repeat wp_step.
  all: lazymatch goal with
       | |- _ _ (mk _ _ _ ?l) =>
           let f := front_of l acc in
           apply (HQ _ _ (rev f) (log_mk_app _ _ _ f acc)); reflexivity
       end.
Qed.

(** Up to the clone, whatever happens, the disk and the importer are
    untouched and the log holds events of the first steps only; the
    [try] block then either enters the clone phase or has raised. *)
Lemma steps_reach_transfer Q t u src b name disk :
  let s := importer t u src b name in
  (∀ n acc, forallb prefix_event acc = true →
            wp (transfer_steps env s) (fin env Q) (mk s disk n acc)) →
  (∀ n acc e, forallb prefix_event acc = true →
              fin env Q (Raise e) (mk s disk n acc)) →
  wp (import_steps env) (fin env Q) (mk s disk 0 []).
Proof.
  intros s Htransfer Hraise. subst s.
  repeat prefix_step.
  all: lazymatch goal with
       | |- fin _ _ _ _ => apply Hraise; reflexivity
       | |- wp _ _ _ => apply Htransfer; reflexivity
       end.
Qed.

End Phases.

(** ** The claims about the repository name *)

(** C2 (amended).  For every source URL whose path has a non-empty
    final segment and no override name, the derived repository name is
    that segment with a trailing [.git] removed, unless nothing is left
    (the segment is exactly [.git]): then [__init__] raises
    [ValueError] and no name is derived. *)
Theorem derived_name_is_final_segment `{lib : PyLib}
    (t u url : string) (b override : option string)
    (parsed : ParseResult) (seg name : string) :
  urlparse url = Ok parsed →
  final_segment (path parsed) seg → seg ≠ "" →
  Py.truthy override = false →
  without_git_suffix seg name →
  __init__ t u url b override
  = if String.eqb name "" then Raise no_repo_name
    else Ok (importer t u url b name).
Proof.
  intros Hparse (dir & Hpath & Hdir & Hseg) Hne Hover Hname.
  rewrite init_without_override by done.
  rewrite (extract_from_path url parsed dir seg 0 name); try done.
  - by destruct (String.eqb name "").
  - by rewrite Hpath, str_app_nil_r.
Qed.

(** The scenario of C2: [https://example.com/group/proj.git] with no
    override derives [proj]. *)
Lemma derived_name_scenario :
  __init__ (lib := Sample.lib) "tok" "alice" "https://example.com/group/proj.git"
    None None
  = Ok (importer "tok" "alice" "https://example.com/group/proj.git" None "proj").
Proof.
  apply (derived_name_is_final_segment (lib := Sample.lib)
           "tok" "alice" "https://example.com/group/proj.git" None None
           {| scheme := "https"; netloc := "example.com"; path := "/group/proj.git";
              params := ""; query := ""; fragment := "" |}
           "proj.git" "proj").
  - reflexivity.
  - exists "/group/". split; [reflexivity|]. split; [|reflexivity].
    right. exists "/group". reflexivity.
  - discriminate.
  - reflexivity.
  - left. reflexivity.
Defined.

(** C2 as stated fails where the final segment is exactly [.git]: the
    segment is not empty, yet no name is derived. *)
Lemma dot_git_segment_has_no_name :
  urlparse (PyLib := Sample.lib) "https://example.com/group/.git"
  = Ok {| scheme := "https"; netloc := "example.com"; path := "/group/.git";
          params := ""; query := ""; fragment := "" |}
  ∧ final_segment "/group/.git" ".git"
  ∧ ".git" ≠ ""
  ∧ without_git_suffix ".git" ""
  ∧ __init__ (lib := Sample.lib) "tok" "alice" "https://example.com/group/.git"
      None None
    = Raise no_repo_name.
Proof.
  split; [reflexivity|]. split.
  { exists "/group/". split; [reflexivity|]. split; [|reflexivity].
    right. by exists "/group". }
  split; [discriminate|]. split; [by left|]. reflexivity.
Qed.

(** C3.  For every source URL with an empty path and no override name,
    [__init__] raises, and the process ends with that exception before
    a single event (no command, no prompt, no printed line) happened:
    none of the steps of [import_repo] ran. *)
Theorem empty_path_fails_before_any_call `{lib : PyLib} (env : Env)
    (disk : gset string) (t u url : string) (b override : option string)
    (parsed : ParseResult) :
  urlparse url = Ok parsed → path parsed = "" →
  Py.truthy override = false →
  __init__ t u url b override = Raise no_repo_name
  ∧ main_run env disk t u url b override = (Raise no_repo_name, disk, []).
Proof.
  intros Hparse Hpath Hover.
  assert (__init__ t u url b override = Raise no_repo_name) as Hinit.
  { rewrite init_without_override by done.
    unfold _extract_repo_name. rewrite Hparse. cbn [mbind result_bind].
    rewrite Hpath. reflexivity. }
  split; [done|]. unfold main_run. by rewrite Hinit.
Qed.

Lemma empty_path_scenario :
  __init__ (lib := Sample.lib) "tok" "alice" "https://example.com" None None
  = Raise no_repo_name
  ∧ main_run (H := Sample.lib) (Sample.world Sample.happy) ∅
      "tok" "alice" "https://example.com" None None
    = (Raise no_repo_name, ∅, []).
Proof.
  apply (empty_path_fails_before_any_call (lib := Sample.lib)
           (Sample.world Sample.happy) ∅ "tok" "alice" "https://example.com"
           None None
           {| scheme := "https"; netloc := "example.com"; path := "";
              params := ""; query := ""; fragment := "" |});
    reflexivity.
Defined.

(** C10 (amended).  Trailing slashes are stripped before the [.git]
    suffix is removed and the final component is taken: for every
    source URL whose path ends in one or more slashes and has a last
    non-empty segment, the derived name is that segment with a
    trailing [.git] removed, although the final component of the path
    is empty; if nothing is left of the segment (it is exactly [.git])
    the derivation raises [ValueError]. *)
Theorem trailing_slashes_are_ignored `{lib : PyLib}
    (url : string) (parsed : ParseResult) (seg name : string) :
  urlparse url = Ok parsed →
  (∃ p, path parsed = p +:+ "/") →
  last_nonempty_segment (path parsed) seg →
  without_git_suffix seg name →
  _extract_repo_name url
  = (if String.eqb name "" then Raise no_repo_name else Ok name)
  ∧ last (Py.split "/" (path parsed)) = Some "".
Proof.
  intros Hparse [p Hp] (dir & n & Hpath & Hdir & Hseg & Hne) Hname. split.
  - by apply (extract_from_path url parsed dir seg n name).
  - rewrite Hp. change (p +:+ "/") with (p +:+ String "/" "").
    by rewrite split_app, last_app.
Qed.

Lemma trailing_slash_scenario :
  _extract_repo_name (lib := Sample.lib) "https://example.com/group/proj.git/"
  = Ok "proj"
  ∧ last (Py.split "/" "/group/proj.git/") = Some "".
Proof.
  apply (trailing_slashes_are_ignored (lib := Sample.lib)
           "https://example.com/group/proj.git/"
           {| scheme := "https"; netloc := "example.com"; path := "/group/proj.git/";
              params := ""; query := ""; fragment := "" |}
           "proj.git" "proj").
  - reflexivity.
  - exists "/group/proj.git". reflexivity.
  - exists "/group/", 1%nat. split; [reflexivity|]. split; [|split].
    + right. exists "/group". reflexivity.
    + reflexivity.
    + discriminate.
  - left. reflexivity.
Defined.

(** C10 as stated fails for the path [/group/.git/]: it ends in a
    slash, its last non-empty segment is [.git], and no name is
    derived. *)
Lemma dot_git_before_slash_has_no_name :
  urlparse (PyLib := Sample.lib) "https://example.com/group/.git/"
  = Ok {| scheme := "https"; netloc := "example.com"; path := "/group/.git/";
          params := ""; query := ""; fragment := "" |}
  ∧ last_nonempty_segment "/group/.git/" ".git"
  ∧ _extract_repo_name (lib := Sample.lib) "https://example.com/group/.git/"
    = Raise no_repo_name.
Proof.
  split; [reflexivity|]. split; [|reflexivity].
  exists "/group/", 1%nat. split; [reflexivity|]. split; [|split].
  - right. by exists "/group".
  - reflexivity.
  - discriminate.
Qed.

(** A path of slashes only has no segment to name the repository. *)
Lemma only_slashes_has_no_name `{lib : PyLib} (url : string)
    (parsed : ParseResult) (n : nat) :
  urlparse url = Ok parsed → path parsed = slashes n →
  _extract_repo_name url = Raise no_repo_name.
Proof.
  intros Hparse Hpath. unfold _extract_repo_name.
  rewrite Hparse. cbn [mbind result_bind]. rewrite Hpath.
  by rewrite rstrip_slashes.
Qed.

(** * The claims about runs *)

Section Runs.
Context {lib : PyLib} (env : Env).

(** C5.  If the token-validation request returns a status other than
    200, the process exits with code 1, and after that request nothing
    is called any more: no request to the hosting API, no use of the
    version-control tool, no command and no prompt at all. *)
Theorem invalid_token_exits_1 (t u src : string) (b : option string)
    (name : string) (disk : gset string) (out err : string) :
  let s := importer t u src b name in
  let final := import_repo env (start s disk) in
  In (ERun (validate_request s) None (Completed 0 out err)) (log final.2) →
  Py.strip out ≠ "200" →
  exit_status final.1 = 1
  ∧ Forall (λ e, is_call e = false) (events_after is_validation (log final.2)).
Proof.
  follow_run. repeat prefix_step.
  all: lazymatch goal with
       | |- fin _ _ _ _ =>
           apply fin_nothing_to_clean; [reflexivity|]; wp_simpl;
           intros HIn Hne;
           first [ solve [split; [reflexivity|]; apply Forall_not; vm_compute; reflexivity]
                 | exfalso; pick is_validation HIn; simplify_eq; congruence ]
       | |- wp _ _ _ =>
           apply (transfer_events _ _ t u src b name);
           intros r st' evs Hlog Hall HIn Hne; exfalso;
           pick_before is_validation HIn Hlog Hall; simplify_eq; congruence
       end.
Qed.

(** C4.  If the destination probe returns 200 and the user answers the
    overwrite prompt with anything but yes, the process exits with
    code 0 and the log holds no creation request, no clone and no
    push. *)
Theorem declined_overwrite_exits_0 (t u src : string) (b : option string)
    (name : string) (disk : gset string) (out err text : string) :
  let s := importer t u src b name in
  let final := import_repo env (start s disk) in
  In (ERun (probe_request s) None (Completed 0 out err)) (log final.2) →
  Py.strip out = "200" →
  In (EInput overwrite_prompt (Typed text)) (log final.2) →
  Py.lower (Py.strip text) ≠ "yes" →
  exit_status final.1 = 0
  ∧ count is_create (log final.2) = 0%nat
  ∧ count is_clone (log final.2) = 0%nat
  ∧ count is_push (log final.2) = 0%nat.
Proof.
  follow_run. repeat prefix_step.
  all: lazymatch goal with
       | |- fin _ _ _ _ =>
           apply fin_nothing_to_clean; [reflexivity|]; wp_simpl;
           intros Hprobe H200 Hprompt Hno;
           first [ solve [repeat split; vm_compute; reflexivity]
                 | exfalso; pick is_probe Hprobe; pick is_prompt Hprompt;
                   simplify_eq; congruence ]
       | |- wp _ _ _ =>
           apply (transfer_events _ _ t u src b name);
           intros r st' evs Hlog Hall Hprobe H200 Hprompt Hno; exfalso;
           pick_before is_probe Hprobe Hlog Hall;
           pick_before is_prompt Hprompt Hlog Hall;
           simplify_eq; congruence
       end.
Qed.

(** C6.  If the destination probe returns a status other than 200, the
    creation step is entered exactly once (and sends at most one
    creation request), and nothing of the clone phase, neither its
    opening line nor the clone command, comes before it. *)
Theorem creation_once_before_clone (t u src : string) (b : option string)
    (name : string) (disk : gset string) (out err : string) :
  let s := importer t u src b name in
  let final := import_repo env (start s disk) in
  In (ERun (probe_request s) None (Completed 0 out err)) (log final.2) →
  Py.strip out ≠ "200" →
  count is_creation_start (log final.2) = 1%nat
  ∧ (count is_create (log final.2) ≤ 1)%nat
  ∧ count is_clone_start (events_before is_creation_start (log final.2)) = 0%nat
  ∧ count is_clone (events_before is_creation_start (log final.2)) = 0%nat.
Proof.
  follow_run. repeat prefix_step.
  all: lazymatch goal with
       | |- fin _ _ _ _ =>
           apply fin_nothing_to_clean; [reflexivity|]; wp_simpl;
           intros HIn Hne;
           first [ solve [repeat split; vm_compute; first [reflexivity | lia]]
                 | exfalso; pick is_probe HIn; simplify_eq; congruence ]
       | |- wp _ _ _ =>
           apply (transfer_events _ _ t u src b name);
           intros r st' evs Hlog Hall HIn Hne;
           first [ exfalso; pick_before is_probe HIn Hlog Hall;
                   simplify_eq; congruence
                 | rewrite Hlog, !count_app,
                     (count_none _ _ evs tail_not_creation_start Hall),
                     (count_none _ _ evs tail_not_create Hall),
                     events_before_app by (vm_compute; reflexivity);
                   repeat split; vm_compute; first [reflexivity | lia] ]
       end.
Qed.

(** C7 (amended).  If the answer to the user-type lookup, as the text
    [subprocess.run] delivers, is one on which [json.loads] raises
    [JSONDecodeError], the failure is printed and the run goes on:
    exactly one creation request is sent, and it goes to the
    personal-account endpoint [https://api.github.com/user/repos]. *)
Theorem undecodable_user_type_targets_personal_endpoint (t u src : string)
    (b : option string) (name : string) (disk : gset string) (out err : string) :
  let s := importer t u src b name in
  let final := import_repo env (start s disk) in
  In (ERun (org_check_request s) None (Completed 0 out err)) (log final.2) →
  json_loads (Py.strip out) = None →
  json_raises (Py.strip out) = NotJson →
  count is_create (log final.2) = 1%nat
  ∧ count (create_targets "https://api.github.com/user/repos") (log final.2) = 1%nat
  ∧ In (EPrint lookup_failed_line) (log final.2).
Proof.
  follow_run. repeat prefix_step.
  all: lazymatch goal with
       | |- fin _ _ _ _ =>
           apply fin_nothing_to_clean; [reflexivity|]; wp_simpl;
           intros HIn Hnone Hfault;
           first [ solve [split; [|split]; [vm_compute; reflexivity..|find_in]]
                 | exfalso; pick is_lookup HIn; simplify_eq; congruence ]
       | |- wp _ _ _ =>
           apply (transfer_events _ _ t u src b name);
           intros r st' evs Hlog Hall HIn Hnone Hfault;
           first [ exfalso; pick_before is_lookup HIn Hlog Hall;
                   simplify_eq; congruence
                 | rewrite Hlog, !count_app,
                     (count_none is_create _ evs tail_not_create Hall),
                     (count_none (create_targets _) _ evs
                        (tail_not_create_to _) Hall);
                   split; [|split]; [vm_compute; reflexivity..|];
                   apply in_or_app; left; cbn [rev app In];
                   repeat first [ left; reflexivity | right ] ]
       end.
Qed.

(** C9 (amended).  If the answer to the creation request, as the text
    [subprocess.run] delivers, is one on which [json.loads] raises
    [JSONDecodeError], creation has failed just as when the decoded
    answer has no [id]: that text, stripped, is printed, the process
    exits with code 1, and nothing is cloned or pushed. *)
Theorem undecodable_creation_response_is_fatal (t u src : string)
    (b : option string) (name : string) (disk : gset string)
    (endpoint out err : string) :
  let s := importer t u src b name in
  let final := import_repo env (start s disk) in
  In (ERun (create_request s endpoint) None (Completed 0 out err)) (log final.2) →
  (json_loads (Py.strip out) = None ∧ json_raises (Py.strip out) = NotJson)
  ∨ (∃ v, json_loads (Py.strip out) = Some v ∧ py_contains "id" v = Ok false) →
  exit_status final.1 = 1
  ∧ In (EPrint (coloured Colors.FAIL (Py.strip out))) (log final.2)
  ∧ count is_clone (log final.2) = 0%nat
  ∧ count is_push (log final.2) = 0%nat.
Proof.
  follow_run. repeat prefix_step.
  all: lazymatch goal with
       | |- fin _ _ _ _ =>
           apply fin_nothing_to_clean; [reflexivity|]; wp_simpl;
           intros HIn Hrejected;
           pick is_create HIn; simplify_eq;
           first [ solve [split; [reflexivity|]; split; [find_in|];
                          split; vm_compute; reflexivity]
                 | exfalso; destruct Hrejected as [[? ?]|(? & ? & ?)]; congruence ]
       | |- wp _ _ _ =>
           apply (transfer_events _ _ t u src b name);
           intros r st' evs Hlog Hall HIn Hrejected; exfalso;
           pick_before is_create HIn Hlog Hall; simplify_eq;
           destruct Hrejected as [[? ?]|(? & ? & ?)]; congruence
       end.
Qed.

(** An answer that cannot be decoded as text ends the run where it
    is received: the exception is not one that [_run_command] or the
    creation step catch, so the process exits with code 1 and, unless
    it was the answer to the default-branch update, nothing has been
    cloned or pushed; after an unreadable answer to the user-type
    lookup no creation request is sent either. *)
Lemma unreadable_answer_is_fatal (t u src : string) (b : option string)
    (name : string) (disk : gset string) (c : curl)
    (cwd : option string) (rc : Z) :
  let s := importer t u src b name in
  let final := import_repo env (start s disk) in
  In (ERun (Curl c) cwd (Undecodable rc)) (log final.2) →
  curl_method c ≠ PATCH →
  exit_status final.1 = 1
  ∧ count is_clone (log final.2) = 0%nat
  ∧ count is_push (log final.2) = 0%nat
  ∧ (Curl c = org_check_request s → count is_create (log final.2) = 0%nat).
Proof.
  follow_run. repeat prefix_step.
  all: lazymatch goal with
       | |- fin _ _ _ _ =>
           apply fin_nothing_to_clean; [reflexivity|]; wp_simpl;
           intros HIn Hcmd;
           pick is_unreadable HIn; simplify_eq;
           (split; [reflexivity|]); (split; [vm_compute; reflexivity|]);
           (split; [vm_compute; reflexivity|]);
           first [ intros _; vm_compute; reflexivity
                 | intros Heq; vm_compute in Heq; discriminate Heq ]
       | |- wp _ _ _ =>
           apply (transfer_events _ _ t u src b name);
           intros r st' evs Hlog Hall HIn Hcmd; exfalso;
           rewrite Hlog in HIn; apply in_app_or in HIn as [HIn|HIn];
           [ by pick is_unreadable HIn
           | apply (in_forallb _ _ _ Hall) in HIn;
             destruct c as [[] ? ? ? ?]; done ]
       end.
Qed.

(** So does an answer on which [json.loads] raises something else than
    [JSONDecodeError]: the [except] clauses of the creation step do not
    catch it. *)
Lemma decoder_fault_is_fatal (t u src : string) (b : option string)
    (name : string) (disk : gset string) (cmd : command) (out err : string) :
  let s := importer t u src b name in
  let final := import_repo env (start s disk) in
  In (ERun cmd None (Completed 0 out err)) (log final.2) →
  is_decoded (ERun cmd None (Completed 0 out err)) = true →
  json_loads (Py.strip out) = None →
  json_raises (Py.strip out) ≠ NotJson →
  exit_status final.1 = 1
  ∧ count is_clone (log final.2) = 0%nat
  ∧ (cmd = org_check_request s → count is_create (log final.2) = 0%nat).
Proof.
  follow_run. repeat prefix_step.
  all: lazymatch goal with
       | |- fin _ _ _ _ =>
           apply fin_nothing_to_clean; [reflexivity|]; wp_simpl;
           intros HIn Hcmd Hnone Hfault;
           pick_by Hcmd HIn; simplify_eq; try congruence;
           (split; [reflexivity|]); (split; [vm_compute; reflexivity|]);
           first [ intros _; vm_compute; reflexivity
                 | intros Heq; vm_compute in Heq; discriminate Heq ]
       | |- wp _ _ _ =>
           apply (transfer_events _ _ t u src b name);
           intros r st' evs Hlog Hall HIn Hcmd Hnone Hfault; exfalso;
           rewrite Hlog in HIn; apply in_app_or in HIn as [HIn|HIn];
           [ pick_by Hcmd HIn; simplify_eq; congruence
           | apply (in_forallb _ _ _ Hall) in HIn;
             destruct cmd as [| [[] ? ? ? ?] | | |]; done ]
       end.
Qed.

End Runs.

(** * The claims about the transfer *)

Section Transfer.
Context {lib : PyLib} (env : Env).

(** After a clone and a push that succeeded: with a custom branch, one
    default-branch update, sent after the push; without, none. *)
Lemma branch_update_after_push (t u src : string) (b : option string)
    (name : string) (disk : gset string) (o1 e1 o2 e2 : string) :
  let s := importer t u src b name in
  let dir := staging_path env s in
  let final := import_repo env (start s disk) in
  In (ERun (GitCloneMirror src dir) None (Completed 0 o1 e1)) (log final.2) →
  In (ERun (GitPushMirror (github_url s)) (Some dir) (Completed 0 o2 e2))
    (log final.2) →
  if Py.truthy b then
    count is_update_branch (log final.2) = 1%nat
    ∧ count is_update_branch (events_after is_push (log final.2)) = 1%nat
    ∧ ∃ reply, In (ERun (update_branch_request s (default "" b)) None reply)
                 (log final.2)
  else count is_update_branch (log final.2) = 0%nat.
Proof.
  follow_run. apply (steps_reach_transfer _ _ t u src b name).
  - intros n acc Hacc. rewrite <- forallb_rev in Hacc.
    repeat wp_step.
    all: set (dir := staging_path env _) in *; clearbody dir;
      split_log acc; intros Hclone Hpush;
      pick_after is_clone Hclone Hacc; pick_after is_push Hpush Hacc;
      simplify_eq; try done.
    all: rewrite ?(events_after_skip is_push (rev acc))
        by exact (count_none _ _ _ prefix_not_push Hacc);
      rewrite ?count_app, ?(count_none is_update_branch _ _ prefix_not_update_branch Hacc);
      first [ vm_compute; reflexivity
            | split; [vm_compute; reflexivity|];
              split; [vm_compute; reflexivity|];
              eexists; apply in_or_app; right; cbn [In];
              repeat first [ left; reflexivity | right ] ].
  - intros n acc e Hacc. apply fin_nothing_to_clean; [reflexivity|].
    intros Hclone _. exfalso.
    apply (in_forallb _ _ _ (raised_log_is_prefix _ _ _ _ _ Hacc)) in Hclone.
    vm_compute in Hclone. discriminate Hclone.
Qed.

(** C8.  After a successful clone and push: if no custom default
    branch was given ([None], or the empty string, which Python takes
    as absent), no default-branch update is sent; if one was given,
    exactly one update is sent, it comes after the push in the log, and
    it names that branch. *)
Theorem default_branch_update (t u src : string) (b : option string)
    (name : string) (disk : gset string) (o1 e1 o2 e2 : string) :
  let s := importer t u src b name in
  let dir := staging_path env s in
  let final := import_repo env (start s disk) in
  In (ERun (GitCloneMirror src dir) None (Completed 0 o1 e1)) (log final.2) →
  In (ERun (GitPushMirror (github_url s)) (Some dir) (Completed 0 o2 e2))
    (log final.2) →
  (Py.truthy b = false → count is_update_branch (log final.2) = 0%nat)
  ∧ (∀ branch, b = Some branch → branch ≠ "" →
       count is_update_branch (log final.2) = 1%nat
       ∧ count is_update_branch (events_after is_push (log final.2)) = 1%nat
       ∧ ∃ reply, In (ERun (update_branch_request s branch) None reply)
                    (log final.2)).
Proof.
  intros s dir final Hclone Hpush.
  pose proof (branch_update_after_push t u src b name disk o1 e1 o2 e2
                Hclone Hpush) as H.
  split.
  - intros Hb. by rewrite Hb in H.
  - intros branch -> Hne. by destruct branch.
Qed.


End Transfer.

(** * The claims on concrete runs *)

(** C5 at a token the service answers with 401. *)
Lemma invalid_token_scenario :
  let final := import_repo (lib := Sample.lib) (Sample.world Sample.rejected_token)
                 (start (Sample.job None) ∅) in
  exit_status final.1 = 1
  ∧ Forall (λ e, is_call e = false) (events_after is_validation (log final.2)).
Proof.
  apply (invalid_token_exits_1 (lib := Sample.lib)
           (Sample.world Sample.rejected_token)
           "tok" "alice" Sample.source None "proj" ∅ "401" "").
  - in_log.
  - vm_compute. discriminate.
Defined.

(** C4 at an existing repository and the answer no. *)
Lemma declined_overwrite_scenario :
  let final := import_repo (lib := Sample.lib) (Sample.world Sample.declined)
                 (start (Sample.job None) ∅) in
  exit_status final.1 = 0
  ∧ count is_create (log final.2) = 0%nat
  ∧ count is_clone (log final.2) = 0%nat
  ∧ count is_push (log final.2) = 0%nat.
Proof.
  apply (declined_overwrite_exits_0 (lib := Sample.lib)
           (Sample.world Sample.declined)
           "tok" "alice" Sample.source None "proj" ∅ "200" "" "no").
  - in_log.
  - reflexivity.
  - in_log.
  - vm_compute. discriminate.
Defined.

(** C6 at a destination that does not exist yet (probe answers 404). *)
Lemma creation_once_scenario :
  let final := import_repo (lib := Sample.lib) (Sample.world Sample.happy)
                 (start (Sample.job None) ∅) in
  count is_creation_start (log final.2) = 1%nat
  ∧ (count is_create (log final.2) ≤ 1)%nat
  ∧ count is_clone_start (events_before is_creation_start (log final.2)) = 0%nat
  ∧ count is_clone (events_before is_creation_start (log final.2)) = 0%nat.
Proof.
  apply (creation_once_before_clone (lib := Sample.lib)
           (Sample.world Sample.happy)
           "tok" "alice" Sample.source None "proj" ∅ "404" "").
  - in_log.
  - vm_compute. discriminate.
Defined.

(** C7 at a user-type lookup answered by a gateway's error page. *)
Lemma undecodable_user_type_scenario :
  let final := import_repo (lib := Sample.lib) (Sample.world Sample.garbled_lookup)
                 (start (Sample.job None) ∅) in
  count is_create (log final.2) = 1%nat
  ∧ count (create_targets "https://api.github.com/user/repos") (log final.2) = 1%nat
  ∧ In (EPrint lookup_failed_line) (log final.2).
Proof.
  apply (undecodable_user_type_targets_personal_endpoint (lib := Sample.lib)
           (Sample.world Sample.garbled_lookup)
           "tok" "alice" Sample.source None "proj" ∅ Sample.gateway_body "").
  - in_log.
  - reflexivity.
  - reflexivity.
Defined.

(** C7 as stated fails for an answer that is no text at all: decoding
    the bytes raises [UnicodeDecodeError] inside [subprocess.run]; no
    [except] clause of the creation step catches it, so nothing is
    printed about the lookup, no creation request is sent to either
    endpoint, and the process exits with code 1. *)
Lemma unreadable_user_type_ends_the_run :
  let env := Sample.world (Cases.with_bodies Cases.garbled_bytes Sample.created_body) in
  let final := import_repo (lib := Sample.lib) env (start (Sample.job None) ∅) in
  run_reply env 3 (org_check_request (Sample.job None))
  = Exited 0 Cases.garbled_bytes ""
  ∧ In (ERun (org_check_request (Sample.job None)) None (Undecodable 0))
      (log final.2)
  ∧ count is_create (log final.2) = 0%nat
  ∧ ¬ In (EPrint lookup_failed_line) (log final.2)
  ∧ exit_status final.1 = 1.
Proof.
  split; [reflexivity|]. split; [in_log|]. split; [reflexivity|].
  split; [|reflexivity].
  intros Hin. vm_compute in Hin.
  repeat match type of Hin with
         | _ ∨ _ => destruct Hin as [Hin|Hin]
         | False => destruct Hin
         end; discriminate Hin.
Qed.

(** C9 at a creation request answered by a gateway's error page. *)
Lemma undecodable_creation_scenario :
  let final := import_repo (lib := Sample.lib) (Sample.world Sample.garbled_creation)
                 (start (Sample.job None) ∅) in
  exit_status final.1 = 1
  ∧ In (EPrint (coloured Colors.FAIL Sample.gateway_body)) (log final.2)
  ∧ count is_clone (log final.2) = 0%nat
  ∧ count is_push (log final.2) = 0%nat.
Proof.
  apply (undecodable_creation_response_is_fatal (lib := Sample.lib)
           (Sample.world Sample.garbled_creation)
           "tok" "alice" Sample.source None "proj" ∅
           user_endpoint Sample.gateway_body "").
  - in_log.
  - left. split; reflexivity.
Defined.

(** C9 as stated fails for an answer that is no text at all: decoding
    the bytes raises [UnicodeDecodeError] inside [subprocess.run], the
    creation step never gets a response to print, and all that follows
    the request in the log is the line of the last [except] clause of
    [import_repo].  The process still exits with code 1. *)
Lemma unreadable_creation_response_is_not_printed :
  let env := Sample.world (Cases.with_bodies Sample.user_body Cases.garbled_bytes) in
  let final := import_repo (lib := Sample.lib) env (start (Sample.job None) ∅) in
  run_reply env 4 (create_request (Sample.job None) user_endpoint)
  = Exited 0 Cases.garbled_bytes ""
  ∧ In (ERun (create_request (Sample.job None) user_endpoint) None (Undecodable 0))
      (log final.2)
  ∧ events_after is_create (log final.2)
    = [EPrint [Lit (NL +:+ Colors.FAIL +:+ "Unexpected error: ");
               OfExn UnicodeDecodeError; Lit Colors.ENDC]]
  ∧ exit_status final.1 = 1.
Proof.
  split; [reflexivity|]. split; [in_log|]. split; reflexivity.
Qed.

(** C8 with the custom default branch [main], and without one. *)
Lemma default_branch_scenario :
  let final := import_repo (lib := Sample.lib) (Sample.world Sample.happy)
                 (start (Sample.job (Some "main")) ∅) in
  (Py.truthy (Some "main") = false → count is_update_branch (log final.2) = 0%nat)
  ∧ (∀ branch, Some "main" = Some branch → branch ≠ "" →
       count is_update_branch (log final.2) = 1%nat
       ∧ count is_update_branch (events_after is_push (log final.2)) = 1%nat
       ∧ ∃ reply, In (ERun (update_branch_request (Sample.job (Some "main")) branch)
                        None reply) (log final.2)).
Proof.
  apply (default_branch_update (lib := Sample.lib) (Sample.world Sample.happy)
           "tok" "alice" Sample.source (Some "main") "proj" ∅ "" "" "" "").
  - in_log.
  - in_log.
Defined.



(** Why C1 (amended) asks for the last removal to succeed: when the
    [rm -rf] of [_cleanup] fails after an import that went well, the
    staging directory stays, and the run ends with the exception
    [_run_command] raised again. *)
Lemma failed_removal_leaves_staging_dir :
  let final := import_repo (lib := Sample.lib) (Sample.stuck_world Sample.happy)
                 (start (Sample.job None) ∅) in
  count is_push (log final.2) = 1%nat
  ∧ last (List.filter is_rm (log final.2))
    = Some (ERun (RmRf Sample.staging) None (Completed 1 "" "rm: cannot remove"))
  ∧ exit_status final.1 = 1
  ∧ Sample.staging ∈ fs final.2.
Proof.
  split; [reflexivity|]. split; [reflexivity|]. split; [reflexivity|].
  vm_compute. reflexivity.
Qed.

(** Why it asks for a path that is a plain word: the commands are
    handed to the shell unquoted, so with the repository name
    [my repo] the [rm -rf] of [_cleanup] removes [/tmp/git-import-my]
    and [repo-4242], exits with code 0, and leaves the staging
    directory where it was. *)
Lemma unquoted_removal_leaves_staging_dir :
  let env := Cases.word_splitting
               (Sample.world
                  (Cases.with_transfer
                     (Exited 129 "" "fatal: Too many arguments.")
                     (Exited 0 "" ""))) in
  let final := import_repo (lib := Sample.lib) env
                 (start Cases.spaced_job {[ Cases.spaced_staging ]}) in
  staging_path env Cases.spaced_job = Cases.spaced_staging
  ∧ shell_word Cases.spaced_staging = false
  ∧ last (List.filter is_rm (log final.2))
    = Some (ERun (RmRf Cases.spaced_staging) None (Completed 0 "" ""))
  ∧ exit_status final.1 = 1
  ∧ Cases.spaced_staging ∈ fs final.2.
Proof.
  split; [reflexivity|]. split; [reflexivity|]. split; [reflexivity|].
  split; [reflexivity|]. vm_compute. reflexivity.
Qed.

(** * More about the repository name *)

Section NameShape.
Context {lib : PyLib}.

Lemma split_pieces_free sep s piece :
  In piece (Py.split sep s) → has_char sep piece = false.
Proof.
  revert piece. induction s as [|c s IH]; intros piece.
  - intros [<-|[]]. reflexivity.
  - simpl. destruct (Ascii.eqb c sep) eqn:Hc.
    + intros [<-|Hin]; [reflexivity|by apply IH].
    + destruct (Py.split sep s) as [|first rest]; simpl.
      * intros [<-|[]]. simpl. by rewrite Hc.
      * intros [<-|Hin].
        -- simpl. rewrite Hc. apply IH. by left.
        -- apply IH. by right.
Qed.

Lemma last_In {A} (l : list A) (x : A) : last l = Some x → In x l.
Proof.
  induction l as [|y l IH]; [done|]. destruct l as [|z l].
  - intros [= ->]. by left.
  - intros H. right. by apply IH.
Qed.

(** X1.  A name that [_extract_repo_name] returns is never empty and never
    contains a slash, whatever [urlparse] made of the URL. *)
Theorem derived_name_is_one_segment (url name : string) :
  _extract_repo_name url = Ok name →
  name ≠ "" ∧ has_char "/" name = false.
Proof.
  unfold _extract_repo_name.
  destruct (urlparse url) as [parsed|e]; [|done]. cbn [mbind result_bind].
  set (p := if Py.endswith _ _ then _ else _).
  destruct (last (Py.split "/" p)) as [piece|] eqn:Hlast; [|done].
  destruct (String.eqb_spec piece "") as [->|Hne]; [done|].
  intros [= <-]. split; [done|].
  by eapply split_pieces_free, last_In.
Qed.

End NameShape.

Lemma tail_not_lookup e : tail_event e = true → is_lookup e = false.
Proof. destruct e as [line|[| [[] ? ? ? ?] | | |] ? ?|]; done. Qed.

(** Two equations on the same term are merged into one on their right
    sides. *)
Ltac merge_eqs :=
  simplify_eq;
  repeat match goal with
         | H1 : ?a = ?b, H2 : ?a = ?c |- _ => rewrite H1 in H2; simplify_eq
         end.

Lemma find_skip (p : event → bool) l1 l2 :
  count p l1 = 0%nat → List.find p (l1 ++ l2) = List.find p l2.
Proof.
  induction l1 as [|e l1 IH]; [done|]. simpl. destruct (p e); [done|]. apply IH.
Qed.

Lemma events_before_skip p l1 l2 :
  count p l1 = 0%nat →
  events_before p (l1 ++ l2) = (l1 ++ events_before p l2)%list.
Proof.
  induction l1 as [|e l1 IH]; [done|]. simpl. destruct (p e); [done|].
  intros H. by rewrite IH.
Qed.

(** The hypothesis [H : In e log] of a statement about the clone phase
    does not hold in a run that raised before it: [e] is no event of
    the first steps. *)
Ltac not_before_clone H Hacc :=
  exfalso;
  apply (in_forallb _ _ _ (raised_log_is_prefix _ _ _ _ _ Hacc)) in H;
  vm_compute in H; discriminate H.

(** * More about runs: the steps before the clone *)

Section EarlySteps.
Context {lib : PyLib} (env : Env).

(** X2.  If [which] fails for one of the two tools, the other one is looked
    for all the same, the process exits with code 1, and neither the
    hosting API nor the version-control tool is used. *)
Theorem missing_dependency_exits_1 (t u src : string) (b : option string)
    (name : string) (disk : gset string) (dep : string) (rc : Z) (out err : string) :
  let s := importer t u src b name in
  let final := import_repo env (start s disk) in
  In (ERun (Which dep) None (Completed rc out err)) (log final.2) →
  rc ≠ 0 →
  exit_status final.1 = 1
  ∧ count is_which (log final.2) = 2%nat
  ∧ count is_api_or_vcs (log final.2) = 0%nat.
Proof.
  follow_run. repeat prefix_step.
  all: lazymatch goal with
       | |- fin _ _ _ _ =>
           apply fin_nothing_to_clean; [reflexivity|]; wp_simpl;
           intros HIn Hne;
           first [ solve [repeat split; vm_compute; reflexivity]
                 | exfalso; pick is_which HIn; simplify_eq; congruence ]
       | |- wp _ _ _ =>
           apply (transfer_events _ _ t u src b name);
           intros r st' evs Hlog Hall HIn Hne; exfalso;
           pick_before is_which HIn Hlog Hall; simplify_eq; congruence
       end.
Qed.

(** X3.  When both [which] calls ran to their end and a tool is missing,
    the line that reports it names every missing tool, [git] first. *)
Theorem missing_dependencies_are_all_reported (t u src : string)
    (b : option string) (name : string) (disk : gset string)
    (rc1 rc2 : Z) (o1 e1 o2 e2 : string) :
  let s := importer t u src b name in
  let final := import_repo env (start s disk) in
  In (ERun (Which "git") None (Completed rc1 o1 e1)) (log final.2) →
  In (ERun (Which "curl") None (Completed rc2 o2 e2)) (log final.2) →
  missing_of rc1 rc2 ≠ [] →
  In (EPrint (coloured Colors.FAIL
                ("Missing dependencies: "
                 +:+ String.concat ", " (missing_of rc1 rc2))))
    (log final.2).
Proof.
  follow_run. repeat prefix_step.
  all: lazymatch goal with
       | |- fin _ _ _ _ =>
           apply fin_nothing_to_clean; [reflexivity|]; wp_simpl;
           intros Hgit Hcurl Hmissing;
           pick is_which Hgit; pick is_which Hcurl; simplify_eq;
           unfold missing_of in *;
           repeat match goal with
                  | Hrc : ?rc ≠ 0 |- _ =>
                      rewrite (proj2 (Z.eqb_neq rc 0) Hrc) in *; clear Hrc
                  end;
           first [ done | find_in ]
       | |- wp _ _ _ =>
           apply (transfer_events _ _ t u src b name);
           intros r st' evs Hlog Hall Hgit Hcurl Hmissing; exfalso;
           pick_before is_which Hgit Hlog Hall;
           pick_before is_which Hcurl Hlog Hall; simplify_eq; done
       end.
Qed.

(** X4.  Nothing but the two [which] and the validation request itself is
    ever called unless that request came back with status 200: no other
    request to the hosting API, no prompt, no clone, no push, no
    [rm -rf]. *)
Theorem nothing_without_valid_token (t u src : string) (b : option string)
    (name : string) (disk : gset string) (e : event) :
  let s := importer t u src b name in
  let final := import_repo env (start s disk) in
  In e (log final.2) → needs_token e = true →
  ∃ out err,
    In (ERun (validate_request s) None (Completed 0 out err)) (log final.2)
    ∧ Py.strip out = "200".
Proof.
  follow_run. repeat prefix_step.
  all: lazymatch goal with
       | |- fin _ _ _ _ =>
           apply fin_nothing_to_clean; [reflexivity|]; wp_simpl;
           intros HIn He;
           first [ solve [eexists _, _; split; [find_in|congruence]]
                 | exfalso; pick_by He HIn ]
       | |- wp _ _ _ =>
           apply (transfer_events _ _ t u src b name);
           intros r st' evs Hlog Hall HIn He;
           eexists _, _; split;
           [ rewrite Hlog; apply in_or_app; left; cbn [rev app In];
             repeat first [ left; reflexivity | right ]
           | congruence ]
       end.
Qed.

End EarlySteps.

(** * More about runs: how they end *)

Lemma transfer_outcome_app dir push r l evs :
  transfer_outcome dir push r evs → transfer_outcome dir push r (l ++ evs).
Proof.
  destruct r as [[]|[]]; simpl; try done.
  - intros [Hline (out & err & Hpush)]. split; [apply in_or_app; by right|].
    exists out, err. apply in_or_app. by right.
  - intros H. apply in_or_app. by right.
  - intros (-> & Hrc & out & err & Hrm). repeat split; try done.
    exists out, err. apply in_or_app. by right.
Qed.

Section Outcomes.
Context {lib : PyLib} (env : Env).

(** From the clone on: the phase opens with its line, and the run ends
    in one of the ways of [transfer_outcome]. *)
Lemma transfer_outcomes Q t u src b name disk n acc :
  let s := importer t u src b name in
  (∀ r st' evs,
     log st' = (rev acc ++ evs)%list →
     forallb tail_event evs = true →
     head evs = Some (EPrint cloning_line) →
     transfer_outcome (staging_path env s) (GitPushMirror (github_url s)) r evs →
     Q r st') →
  wp (transfer_steps env s) (fin env Q) (mk s disk n acc).
Proof.
  intros s HQ. subst s.
  repeat wp_step.
  all: lazymatch goal with
       | |- _ _ (mk _ _ _ ?l) =>
           let f := front_of l acc in
           apply (HQ _ _ (rev f) (log_mk_app _ _ _ f acc));
           [ reflexivity | reflexivity | cbn [transfer_outcome rev app] ]
       end.
  all: first
    [ reflexivity
    | split; [cbn [In]; repeat first [ left; reflexivity | right ]|];
      eexists _, _; cbn [In]; repeat first [ left; reflexivity | right ]
    | split; [reflexivity|]; split; [done|];
      eexists _, _; cbn [In]; repeat first [ left; reflexivity | right ]
    | cbn [In]; repeat first [ left; reflexivity | right ] ].
Qed.

(** Every run of [import_repo] ends in one of the ways of
    [run_outcome]. *)
Lemma run_outcomes (t u src : string) (b : option string) (name : string)
    (disk : gset string) :
  let s := importer t u src b name in
  let final := import_repo env (start s disk) in
  run_outcome (staging_path env s) (GitPushMirror (github_url s))
    final.1 (log final.2).
Proof.
  follow_run. repeat prefix_step.
  all: lazymatch goal with
       | |- fin _ _ _ _ =>
           apply fin_nothing_to_clean; [reflexivity|]; wp_simpl;
           first [ reflexivity
                 | eexists; split; [find_in|done] ]
       | |- wp _ _ _ =>
           apply (transfer_outcomes _ t u src b name);
           intros r st' evs Hlog Hall _ Hout; rewrite Hlog;
           destruct r as [[]|[[| |]| | | | | | | | | | | |]];
           first [ simpl in Hout; discriminate Hout
                 | unfold run_outcome; apply transfer_outcome_app; exact Hout ]
       end.
Qed.

(** X5.  An exit code of 0 means one of two things: the mirror was pushed
    and the closing lines were printed, or the destination existed and
    the user declined to overwrite it. *)
Theorem exit_0_means_imported_or_declined (t u src : string)
    (b : option string) (name : string) (disk : gset string) :
  let s := importer t u src b name in
  let final := import_repo env (start s disk) in
  exit_status final.1 = 0 →
  (In (EPrint success_line) (log final.2)
   ∧ ∃ out err, In (ERun (GitPushMirror (github_url s))
                      (Some (staging_path env s)) (Completed 0 out err))
                  (log final.2))
  ∨ (∃ text, In (EInput overwrite_prompt (Typed text)) (log final.2)
             ∧ Py.lower (Py.strip text) ≠ "yes").
Proof.
  intros s final. pose proof (run_outcomes t u src b name disk) as H.
  cbv zeta in H. fold s final in H. clearbody final.
  destruct final as [r st]. cbn [fst snd] in *.
  destruct r as [[]|[code| | | | | | | | | | | |]]; cbn [exit_status];
    try discriminate.
  - intros _. by left.
  - intros ->. by right.
Qed.

(** X6.  The only exceptions that leave [import_repo], apart from
    [SystemExit] with code 0 or 1, are those of the [rm -rf] that
    [_cleanup] runs in the [finally] block: [KeyboardInterrupt] when it
    is interrupted, [CalledProcessError] when it fails.  Whatever goes
    wrong before ends in [sys.exit(1)]. *)
Theorem only_cleanup_raises (t u src : string) (b : option string)
    (name : string) (disk : gset string) :
  let s := importer t u src b name in
  let dir := staging_path env s in
  let final := import_repo env (start s disk) in
  final.1 = Ok ()
  ∨ final.1 = Raise (SystemExit 0)
  ∨ final.1 = Raise (SystemExit 1)
  ∨ (final.1 = Raise KeyboardInterrupt
     ∧ In (ERun (RmRf dir) None Interrupted) (log final.2))
  ∨ (∃ rc out err shown,
       final.1 = Raise (CalledProcessError (RmRf dir) rc shown)
       ∧ rc ≠ 0
       ∧ In (ERun (RmRf dir) None (Completed rc out err)) (log final.2)).
Proof.
  intros s dir final. pose proof (run_outcomes t u src b name disk) as H.
  cbv zeta in H. fold s dir final in H. clearbody final.
  destruct final as [r st]. cbn [fst snd] in *.
  destruct r as [[]|[code| |cmd rc shown| | | | | | | | | |]]; simpl in H;
    try done.
  - by left.
  - destruct code; [by right; left|rewrite H; by right; right; left..].
  - do 3 right. left. by split.
  - destruct H as (-> & Hrc & out & err & Hin). do 4 right.
    by exists rc, out, err, shown.
Qed.

End Outcomes.

(** * More about runs: the probe and the creation step *)

Section Creation.
Context {lib : PyLib} (env : Env).

(** X7.  If the destination exists and the user answers yes (in any case,
    with blanks around it), the creation step is skipped altogether and
    the run goes on to the clone phase. *)
Theorem confirmed_overwrite_skips_creation (t u src : string)
    (b : option string) (name : string) (disk : gset string)
    (out err text : string) :
  let s := importer t u src b name in
  let final := import_repo env (start s disk) in
  In (ERun (probe_request s) None (Completed 0 out err)) (log final.2) →
  Py.strip out = "200" →
  In (EInput overwrite_prompt (Typed text)) (log final.2) →
  Py.lower (Py.strip text) = "yes" →
  count is_creation_start (log final.2) = 0%nat
  ∧ count is_lookup (log final.2) = 0%nat
  ∧ count is_create (log final.2) = 0%nat
  ∧ In (EPrint cloning_line) (log final.2).
Proof.
  follow_run. repeat prefix_step.
  all: lazymatch goal with
       | |- fin _ _ _ _ =>
           apply fin_nothing_to_clean; [reflexivity|]; wp_simpl;
           intros Hprobe H200 Hprompt Hyes; exfalso;
           pick is_probe Hprobe; pick is_prompt Hprompt;
           simplify_eq; congruence
       | |- wp _ _ _ =>
           apply (transfer_outcomes _ _ t u src b name);
           intros r st' evs Hlog Hall Hhead _ Hprobe H200 Hprompt Hyes;
           first [ exfalso; pick_before is_probe Hprobe Hlog Hall;
                   simplify_eq; congruence
                 | rewrite Hlog, !count_app,
                     (count_none is_creation_start _ evs tail_not_creation_start Hall),
                     (count_none is_lookup _ evs tail_not_lookup Hall),
                     (count_none is_create _ evs tail_not_create Hall);
                   split; [|split; [|split]]; [vm_compute; reflexivity..|];
                   destruct evs as [|? evs]; [discriminate Hhead|];
                   injection Hhead as ->; apply in_or_app; right; by left ]
       end.
Qed.

(** X8.  An account that the user-type lookup reports as an organization
    gets its repository through the organization endpoint: one
    creation request is sent, to [/orgs/<account>/repos]. *)
Theorem organization_targets_org_endpoint (t u src : string)
    (b : option string) (name : string) (disk : gset string)
    (out err : string) (v : pyval) :
  let s := importer t u src b name in
  let final := import_repo env (start s disk) in
  In (ERun (org_check_request s) None (Completed 0 out err)) (log final.2) →
  json_loads (Py.strip out) = Some v →
  py_get v "type" = Ok (PyStr "Organization") →
  count is_create (log final.2) = 1%nat
  ∧ ∃ reply, In (ERun (create_request s (org_endpoint s)) None reply) (log final.2).
Proof.
  follow_run. repeat prefix_step.
  all: lazymatch goal with
       | |- fin _ _ _ _ =>
           apply fin_nothing_to_clean; [reflexivity|]; wp_simpl;
           intros HIn Hv Hty;
           pick is_lookup HIn; merge_eqs;
           first [ done
                 | split; [vm_compute; reflexivity|]; eexists; solve [find_in] ]
       | |- wp _ _ _ =>
           apply (transfer_events _ _ t u src b name);
           intros r st' evs Hlog Hall HIn Hv Hty;
           pick_before is_lookup HIn Hlog Hall; merge_eqs;
           first [ done
                 | rewrite Hlog, !count_app,
                     (count_none is_create _ evs tail_not_create Hall);
                   split; [vm_compute; reflexivity|];
                   eexists; apply in_or_app; left; cbn [rev app In];
                   solve [repeat first [ left; reflexivity | right ]] ]
       end.
Qed.

(** X9.  The fail-open default covers an undecodable answer only: when the
    answer to the user-type lookup decodes to something that is not an
    object ([null], a list, a number), reading its type raises, no
    creation request is sent and the process exits with code 1. *)
Theorem user_type_not_an_object_is_fatal (t u src : string)
    (b : option string) (name : string) (disk : gset string)
    (out err : string) (v : pyval) :
  let s := importer t u src b name in
  let final := import_repo env (start s disk) in
  In (ERun (org_check_request s) None (Completed 0 out err)) (log final.2) →
  json_loads (Py.strip out) = Some v →
  (∀ items, v ≠ PyDict items) →
  exit_status final.1 = 1
  ∧ count is_create (log final.2) = 0%nat
  ∧ count is_clone (log final.2) = 0%nat.
Proof.
  follow_run. repeat prefix_step.
  all: lazymatch goal with
       | |- fin _ _ _ _ =>
           apply fin_nothing_to_clean; [reflexivity|]; wp_simpl;
           intros HIn Hv Hnot;
           pick is_lookup HIn; simplify_eq;
           first [ solve [repeat split; vm_compute; reflexivity]
                 | exfalso;
                   match goal with
                   | G : py_get ?v _ = Ok _ |- _ =>
                       destruct v; try discriminate G; by eapply Hnot
                   end ]
       | |- wp _ _ _ =>
           apply (transfer_events _ _ t u src b name);
           intros r st' evs Hlog Hall HIn Hv Hnot; exfalso;
           pick_before is_lookup HIn Hlog Hall; simplify_eq;
           match goal with
           | G : py_get ?v _ = Ok _ |- _ =>
               destruct v; try discriminate G; by eapply Hnot
           end
       end.
Qed.

(** X10.  A creation response that has an [id] but whose [html_url] cannot be
    read (the key is missing, or the response is a list or a string
    that contains [id]) is not a success: the exception is reported as
    an unexpected error, the process exits with code 1 and nothing is
    cloned. *)
Theorem created_without_html_url_is_fatal (t u src : string)
    (b : option string) (name : string) (disk : gset string)
    (endpoint out err : string) (v : pyval) (e : exn) :
  let s := importer t u src b name in
  let final := import_repo env (start s disk) in
  In (ERun (create_request s endpoint) None (Completed 0 out err)) (log final.2) →
  json_loads (Py.strip out) = Some v →
  py_contains "id" v = Ok true →
  py_getitem v "html_url" = Raise e →
  exit_status final.1 = 1
  ∧ In (EPrint [Lit (NL +:+ Colors.FAIL +:+ "Unexpected error: "); OfExn e;
               Lit Colors.ENDC]) (log final.2)
  ∧ count is_clone (log final.2) = 0%nat.
Proof.
  follow_run. repeat prefix_step.
  all: lazymatch goal with
       | |- fin _ _ _ _ =>
           apply fin_nothing_to_clean; [reflexivity|]; wp_simpl;
           intros HIn Hv Hid Hurl;
           pick is_create HIn; merge_eqs;
           (split; [reflexivity|]; split; [solve [find_in]|vm_compute; reflexivity])
       | |- wp _ _ _ =>
           apply (transfer_events _ _ t u src b name);
           intros r st' evs Hlog Hall HIn Hv Hid Hurl; exfalso;
           pick_before is_create HIn Hlog Hall; merge_eqs
       end.
Qed.

End Creation.

(** * More about runs: clone, push and cleanup *)

Section TransferSteps.
Context {lib : PyLib} (env : Env).

(** X11.  A clone that exits with a non-zero code ends the run: the failure
    is reported, nothing is pushed, and the exit code is not 0. *)
Theorem failed_clone_is_fatal (t u src : string) (b : option string)
    (name : string) (disk : gset string) (source dir : string)
    (rc : Z) (out err : string) :
  let s := importer t u src b name in
  let final := import_repo env (start s disk) in
  In (ERun (GitCloneMirror source dir) None (Completed rc out err)) (log final.2) →
  rc ≠ 0 →
  exit_status final.1 ≠ 0
  ∧ In (EPrint (coloured Colors.FAIL "Failed to clone source repository"))
      (log final.2)
  ∧ count is_push (log final.2) = 0%nat.
Proof.
  follow_run. apply (steps_reach_transfer _ _ t u src b name).
  - intros n acc Hacc. rewrite <- forallb_rev in Hacc.
    repeat wp_step.
    all: set (staging := staging_path env _) in *; clearbody staging;
      split_log acc; intros Hclone Hrc;
      pick_after is_clone Hclone Hacc; simplify_eq.
    all: rewrite ?count_app, ?(count_none is_push _ _ prefix_not_push Hacc);
      (split; [done|]); split; [|vm_compute; reflexivity];
      apply in_or_app; right; cbn [In];
      solve [repeat first [ left; reflexivity | right ]].
  - intros n acc e Hacc. apply fin_nothing_to_clean; [reflexivity|].
    intros Hclone _. not_before_clone Hclone Hacc.
Qed.

(** X12.  A push that exits with a non-zero code ends the run with an exit
    code other than 0 and without a default-branch update; on the way
    [_run_command] prints the command it ran, and with it the token
    that the push URL carries. *)
Theorem failed_push_is_fatal_and_prints_the_token (t u src : string)
    (b : option string) (name : string) (disk : gset string)
    (url : string) (cwd : option string) (rc : Z) (out err : string) :
  let s := importer t u src b name in
  let final := import_repo env (start s disk) in
  In (ERun (GitPushMirror url) cwd (Completed rc out err)) (log final.2) →
  rc ≠ 0 →
  exit_status final.1 ≠ 0
  ∧ count is_update_branch (log final.2) = 0%nat
  ∧ url = "https://" +:+ t +:+ "@github.com/" +:+ u +:+ "/" +:+ name +:+ ".git"
  ∧ In (EPrint [Lit (Colors.FAIL +:+ "Error executing command: ");
               OfCommand (GitPushMirror url); Lit Colors.ENDC])
      (log final.2).
Proof.
  follow_run. apply (steps_reach_transfer _ _ t u src b name).
  - intros n acc Hacc. rewrite <- forallb_rev in Hacc.
    repeat wp_step.
    all: set (staging := staging_path env _) in *; clearbody staging;
      split_log acc; intros Hpush Hrc;
      pick_after is_push Hpush Hacc; simplify_eq.
    all: rewrite ?count_app,
           ?(count_none is_update_branch _ _ prefix_not_update_branch Hacc);
      (split; [done|]); split; [vm_compute; reflexivity|];
      split; [reflexivity|];
      apply in_or_app; right; cbn [In];
      solve [repeat first [ left; reflexivity | right ]].
  - intros n acc e Hacc. apply fin_nothing_to_clean; [reflexivity|].
    intros Hpush _. not_before_clone Hpush Hacc.
Qed.

(** X13.  What the hosting API answers to the default-branch update is never
    looked at: once the request itself ran (exit code 0) and its output
    was decoded as text, the import is reported as completed whatever
    the answer says, provided the [rm -rf] of [_cleanup] succeeds. *)
Theorem branch_update_answer_is_ignored (t u src : string)
    (b : option string) (name : string) (disk : gset string)
    (branch out err : string) :
  let s := importer t u src b name in
  let dir := staging_path env s in
  let final := import_repo env (start s disk) in
  In (ERun (update_branch_request s branch) None (Completed 0 out err))
    (log final.2) →
  (∀ cwd reply, In (ERun (RmRf dir) cwd reply) (log final.2) →
                ∃ o e, reply = Completed 0 o e) →
  final.1 = Ok ()
  ∧ In (EPrint success_line) (log final.2).
Proof.
  follow_run. apply (steps_reach_transfer _ _ t u src b name).
  - intros n acc Hacc. rewrite <- forallb_rev in Hacc.
    repeat wp_step.
    all: set (dir := staging_path env _) in *; clearbody dir;
      split_log acc; intros Hpatch Hrm;
      pick_after is_update_branch Hpatch Hacc; simplify_eq.
    all: first
      [ split; [reflexivity|]; apply in_or_app; right; cbn [In];
        solve [repeat first [ left; reflexivity | right ]]
      | failed_rm Hrm ].
  - intros n acc e Hacc. apply fin_nothing_to_clean; [reflexivity|].
    intros Hpatch _. not_before_clone Hpatch Hacc.
Qed.

(** X14.  A default-branch update that exits with a non-zero code makes the
    run fail although the mirror has been pushed by then. *)
Theorem failed_branch_update_is_fatal (t u src : string)
    (b : option string) (name : string) (disk : gset string)
    (branch : string) (rc : Z) (out err : string) :
  let s := importer t u src b name in
  let dir := staging_path env s in
  let final := import_repo env (start s disk) in
  In (ERun (update_branch_request s branch) None (Completed rc out err))
    (log final.2) →
  rc ≠ 0 →
  exit_status final.1 ≠ 0
  ∧ ∃ o e, In (ERun (GitPushMirror (github_url s)) (Some dir) (Completed 0 o e))
             (log final.2).
Proof.
  follow_run. apply (steps_reach_transfer _ _ t u src b name).
  - intros n acc Hacc. rewrite <- forallb_rev in Hacc.
    repeat wp_step.
    all: set (dir := staging_path env _) in *; clearbody dir;
      split_log acc; intros Hpatch Hrc;
      pick_after is_update_branch Hpatch Hacc; simplify_eq.
    all: (split; [done|]); eexists _, _; apply in_or_app; right; cbn [In];
      solve [repeat first [ left; reflexivity | right ]].
  - intros n acc e Hacc. apply fin_nothing_to_clean; [reflexivity|].
    intros Hpatch _. not_before_clone Hpatch Hacc.
Qed.

(** X15.  A staging directory that exists when the clone phase begins is
    removed first: the first [rm -rf] of the run is the one of that
    directory, no clone comes before it, and unless it succeeds no
    clone is attempted at all. *)
Theorem stale_staging_dir_is_removed_first (t u src : string)
    (b : option string) (name : string) (disk : gset string) :
  let s := importer t u src b name in
  let dir := staging_path env s in
  let final := import_repo env (start s disk) in
  dir ∈ disk →
  In (EPrint cloning_line) (log final.2) →
  ∃ reply,
    List.find is_rm (log final.2) = Some (ERun (RmRf dir) None reply)
    ∧ count is_clone (events_before is_rm (log final.2)) = 0%nat
    ∧ ((∀ out err, reply ≠ Completed 0 out err) →
       count is_clone (log final.2) = 0%nat).
Proof.
  follow_run. apply (steps_reach_transfer _ _ t u src b name).
  - intros n acc Hacc. rewrite <- forallb_rev in Hacc.
    repeat wp_step.
    all: set (dir := staging_path env _) in *; clearbody dir;
      split_log acc; intros Hstale _; try done.
    all: rewrite (find_skip is_rm (rev acc))
           by exact (count_none _ _ _ prefix_not_rm Hacc);
      rewrite (events_before_skip is_rm (rev acc))
           by exact (count_none _ _ _ prefix_not_rm Hacc);
      rewrite !count_app, (count_none is_clone _ _ prefix_not_clone Hacc);
      eexists; split; [reflexivity|]; split; [reflexivity|];
      first [ intros _; vm_compute; reflexivity
            | intros Hno; exfalso; eapply Hno; reflexivity ].
  - intros n acc e Hacc. apply fin_nothing_to_clean; [reflexivity|].
    intros _ Hline. not_before_clone Hline Hacc.
Qed.

End TransferSteps.

(** * [_run_command] on its own *)

Section RunCommand.
Context {lib : PyLib} (env : Env).

Lemma cwd_exists_not_missing cwd disk :
  cwd_exists cwd disk = true →
  match cwd with
  | Some d => negb (bool_decide (d ∈ disk))
  | None => false
  end = false.
Proof. destruct cwd; simpl; [|done]. by intros ->. Qed.

(** X16.  A checked command that exits with a non-zero code, [out] and
    [err] being what [subprocess.run] delivers of its output (decoded
    as text and with the line ends translated where the output is
    captured): [_run_command] prints the command as it was run, then
    the exception, then the captured standard error if there is any,
    and raises the same [CalledProcessError] again.  Nothing else
    happens. *)
Theorem run_command_reports_and_reraises (cmd : command) (cwd : option string)
    (capture : bool) (st : State) (rc : Z) (out err : string) :
  cwd_exists cwd (fs st) = true →
  receive capture (run_reply env (calls st) cmd) = Completed rc out err →
  rc ≠ 0 →
  let e := CalledProcessError cmd rc (if capture then Some err else None) in
  let final := _run_command env cmd cwd true capture st in
  final.1 = Raise e
  ∧ log final.2
    = (log st
       ++ [ERun cmd cwd (Completed rc out err);
           EPrint [Lit (Colors.FAIL +:+ "Error executing command: ");
                   OfCommand cmd; Lit Colors.ENDC];
           EPrint [Lit Colors.FAIL; OfExn e; Lit Colors.ENDC]]
       ++ (if capture && negb (String.eqb err "")
           then [EPrint (coloured Colors.FAIL ("Error output: " +:+ err))]
           else []))%list
  ∧ calls final.2 = S (calls st)
  ∧ self final.2 = self st.
Proof.
  intros Hcwd Hreply Hrc e final. subst e final.
  apply cwd_exists_not_missing in Hcwd.
  apply Z.eqb_neq in Hrc.
  unfold _run_command, try_except, subprocess_run, mbind, M_bind.
  destruct capture; cbv beta zeta; rewrite Hcwd, Hreply; cbn [andb negb];
    rewrite Hrc; cbn [negb andb].
  - unfold print, record_event, raise; cbn.
    destruct err as [|c err]; cbn; repeat split; by rewrite <- !app_assoc.
  - unfold print, record_event, raise; cbn.
    repeat split; by rewrite <- !app_assoc.
Qed.

(** X17.  When the command exits with code 0, or when it is run unchecked,
    [out] and [err] being what [subprocess.run] delivers of its output:
    [_run_command] raises nothing and prints nothing; it returns what
    [str.strip] makes of the standard output if the output was
    captured, [None] otherwise. *)
Theorem run_command_returns_stripped_output (cmd : command)
    (cwd : option string) (check capture : bool) (st : State)
    (rc : Z) (out err : string) :
  cwd_exists cwd (fs st) = true →
  receive capture (run_reply env (calls st) cmd) = Completed rc out err →
  check = false ∨ rc = 0 →
  let final := _run_command env cmd cwd check capture st in
  final.1 = Ok (if capture then Some (Py.strip out) else None)
  ∧ log final.2 = (log st ++ [ERun cmd cwd (Completed rc out err)])%list.
Proof.
  intros Hcwd Hreply Hok final. subst final.
  apply cwd_exists_not_missing in Hcwd.
  assert (check && negb (rc =? 0) = false) as Hcheck.
  { destruct Hok as [->| ->]; [done|]. by rewrite andb_false_r. }
  unfold _run_command, try_except, subprocess_run, mbind, M_bind.
  destruct capture; cbv beta zeta; rewrite Hcwd, Hreply, Hcheck; by cbn.
Qed.

(** What [subprocess.run] delivers of captured output: each stream
    decoded, with its line ends translated. *)
Lemma receive_captured (rc : Z) (raw_out raw_err out err : string) :
  decode raw_out = Some out → decode raw_err = Some err →
  receive true (Exited rc raw_out raw_err)
  = Completed rc (translate_newlines out) (translate_newlines err).
Proof. intros Hout Herr. unfold receive. by rewrite Hout, Herr. Qed.

(** Captured output that is not text makes [_run_command] raise
    [UnicodeDecodeError], whatever the exit code: nothing is printed. *)
Lemma run_command_on_undecodable_output (cmd : command) (cwd : option string)
    (check : bool) (st : State) (rc : Z) (raw_out raw_err : string) :
  cwd_exists cwd (fs st) = true →
  run_reply env (calls st) cmd = Exited rc raw_out raw_err →
  decode raw_out = None ∨ decode raw_err = None →
  let final := _run_command env cmd cwd check true st in
  final.1 = Raise UnicodeDecodeError
  ∧ log final.2 = (log st ++ [ERun cmd cwd (Undecodable rc)])%list.
Proof.
  intros Hcwd Hreply Hbad final. subst final.
  apply cwd_exists_not_missing in Hcwd.
  assert (receive true (Exited rc raw_out raw_err) = Undecodable rc) as Hrec.
  { unfold receive. destruct Hbad as [-> | ->]; [done|].
    by destruct (decode raw_out). }
  unfold _run_command, try_except, subprocess_run, mbind, M_bind.
  cbv beta zeta. rewrite Hcwd, Hreply, Hrec. by cbn.
Qed.

End RunCommand.

(** * [main] *)

Lemma forallb_impl (p q : event → bool) l :
  (∀ e, p e = true → q e = true) → forallb p l = true → forallb q l = true.
Proof.
  intros Hpq. induction l as [|e l IH]; [done|]. simpl.
  intros [He Hl]%andb_true_iff. by rewrite (Hpq e He), IH.
Qed.

Lemma tail_own_prompt e : tail_event e = true → own_prompt e = true.
Proof. by destruct e. Qed.

Lemma handler_events_own_prompt r : forallb own_prompt (handler_events r) = true.
Proof. destruct r as [|[]]; reflexivity. Qed.

Section ImportFromAnywhere.
Context {lib : PyLib} (env : Env).

(** The steps before the clone, started in the middle of a process. *)
Lemma steps_from Q t u src b name disk n acc :
  let s := importer t u src b name in
  (∀ n' front, forallb own_prompt front = true →
               wp (transfer_steps env s) (fin env Q) (mk s disk n' (front ++ acc))) →
  (∀ n' front e, forallb own_prompt front = true →
                 fin env Q (Raise e) (mk s disk n' (front ++ acc))) →
  wp (import_steps env) (fin env Q) (mk s disk n acc).
Proof.
  intros s Htransfer Hraise. subst s.
  repeat prefix_step.
  all: lazymatch goal with
       | |- fin _ _ _ (mk _ _ _ ?l) =>
           let f := front_of l acc in apply (Hraise _ f); reflexivity
       | |- wp _ _ (mk _ _ _ ?l) =>
           let f := front_of l acc in apply (Htransfer _ f); reflexivity
       end.
Qed.

(** Wherever [import_repo] starts, it only adds to the log, and the
    one thing it asks is whether to overwrite. *)
Lemma import_repo_events t u src b name disk n acc :
  let s := importer t u src b name in
  let final := import_repo env (mk s disk n acc) in
  ∃ evs, log final.2 = (rev acc ++ evs)%list ∧ forallb own_prompt evs = true.
Proof.
  intros s final. subst final.
  change (wp (import_repo env)
            (λ _ st', ∃ evs, log st' = (rev acc ++ evs)%list
                             ∧ forallb own_prompt evs = true)
            (mk s disk n acc)).
  apply wp_import_repo, (steps_from _ t u src b name).
  - intros n' front Hfront. apply (transfer_events _ _ t u src b name).
    intros r st' evs Hlog Hall. exists (rev front ++ evs)%list. split.
    + by rewrite Hlog, rev_app_distr, <- app_assoc.
    + rewrite forallb_app, forallb_rev, Hfront. simpl.
      eapply forallb_impl; [apply tail_own_prompt|done].
  - intros n' front e Hfront. apply fin_nothing_to_clean; [reflexivity|].
    exists (rev (handler_events (Raise e) ++ front)). split.
    + unfold mk. cbn [log]. by rewrite !rev_app_distr, app_assoc.
    + by rewrite forallb_rev, forallb_app, handler_events_own_prompt.
Qed.

End ImportFromAnywhere.

Section Main.
Context {lib : PyLib} (env : Env).

(** What the first block of [main] does, whichever way it goes: the
    disk is left alone, no command is run, a prompt is only shown for
    a value that was not given, and a required value that comes out
    non-empty was given or typed. *)
Lemma read_inputs_spec (args : Namespace) (p : Process) :
  let final := read_inputs env args p in
  p_fs final.2 = p_fs p
  ∧ ∃ evs,
      p_log final.2 = (p_log p ++ evs)%list
      ∧ forallb (λ e, negb (is_command e)) evs = true
      ∧ (∀ prompt r, In (EInput prompt r) evs →
                     In prompt main_prompts
                     ∧ Py.truthy (given_for args prompt) = false)
      ∧ ∀ token user source branch name,
          final.1 = Ok (token, user, source, branch, name) →
          (Py.truthy (Some token) = true →
           obtained (args_token args) token_prompt evs)
          ∧ (Py.truthy (Some user) = true →
             obtained (args_user args) user_prompt evs)
          ∧ (Py.truthy (Some source) = true →
             obtained (args_source args) source_prompt evs).
Proof.
  destruct args as [tok usr srcv br nm inter].
  unfold read_inputs, or_input, p_input, p_print, mbind, P_bind, mret, P_ret.
  cbn [args_token args_user args_source args_branch args_name args_interactive].
  destruct inter, (Py.truthy tok) eqn:Htok, (Py.truthy usr) eqn:Husr,
    (Py.truthy srcv) eqn:Hsrc, (Py.truthy br) eqn:Hbr, (Py.truthy nm) eqn:Hnm;
    cbn [orb andb negb p_fs p_calls p_log fst snd];
    repeat match goal with
           | |- context [input_reply_of ?e ?n ?q] =>
               destruct (input_reply_of e n q) as [?text| |];
               cbn [p_fs p_calls p_log fst snd]
           end.
  all: split; [reflexivity|]; eexists; split;
    [ rewrite <- ?app_assoc; cbn [app]; first [ reflexivity | symmetry; apply app_nil_r ] |].
  all: split; [reflexivity|]; split.
  all: try (intros prompt r Hin; cbn [In] in Hin;
            repeat match type of Hin with
                   | _ ∨ _ => destruct Hin as [Hin|Hin]
                   | False => destruct Hin
                   end; simplify_eq;
            (split; [|assumption]); unfold main_prompts; cbn [In];
            solve [repeat first [ left; reflexivity | right ]]).
  all: intros token user source branch name Heq; simplify_eq;
    unfold obtained; repeat split; intros Htruthy;
    first [ left; assumption
          | right; eexists; split;
            [ cbn [In]; solve [repeat first [ left; reflexivity | right ]]
            | intros Hblank; rewrite Hblank in Htruthy; discriminate Htruthy ] ].
Qed.

(** The end of a process that stops at one of the three checks of
    [main]: one more line, no command. *)
Ltac exit_leaf Hlog :=
  eexists [_]; unfold p_print, p_exit; cbn [fst snd p_log p_fs p_calls];
  rewrite Hlog; split; [reflexivity|]; split; [done|]; split; [done|];
  split; [reflexivity|]; intros ? [<-|[]]; discriminate.

Lemma init_shape t u src b o s :
  __init__ t u src b o = Ok s → ∃ name, s = importer t u src b name.
Proof.
  unfold __init__.
  destruct (if Py.truthy o then _ else _) as [name|e]; [|done].
  intros [= <-]. by exists name.
Qed.

Lemma obtained_app given prompt l1 l2 :
  obtained given prompt l1 → obtained given prompt (l1 ++ l2).
Proof.
  intros [?|(text & Hin & Hne)]; [by left|]. right. exists text.
  split; [|done]. apply in_or_app. by left.
Qed.

(** The log of a whole process: what the first block of [main] added,
    then the rest, where a command shows that the three required
    values had been obtained. *)
Lemma main_shape (args : Namespace) (disk : gset string) :
  let final := main env args (boot disk) in
  ∃ evs rest,
    p_log final.2 = (evs ++ rest)%list
    ∧ forallb (λ e, negb (is_command e)) evs = true
    ∧ (∀ prompt r, In (EInput prompt r) evs →
                   In prompt main_prompts
                   ∧ Py.truthy (given_for args prompt) = false)
    ∧ forallb own_prompt rest = true
    ∧ (∀ e, In e rest → is_command e = true →
            obtained (args_token args) token_prompt evs
            ∧ obtained (args_user args) user_prompt evs
            ∧ obtained (args_source args) source_prompt evs).
Proof.
  cbv zeta. unfold main, mbind, P_bind.
  destruct (read_inputs_spec args (boot disk)) as (_ & evs & Hlog & Hquiet & Hasked & Hobt).
  cbv zeta in *.
  destruct (read_inputs env args (boot disk)) as [[inputs|e] p1];
    cbn [fst snd] in *; cbn [boot p_log app] in Hlog.
  2:{ exists evs, []. rewrite app_nil_r. split_and!; done. }
  destruct inputs as [[[[token user] source] branch] name].
  destruct (Hobt token user source branch name eq_refl) as (Htoken & Huser & Hsource).
  exists evs.
  destruct (Py.truthy (Some token)) eqn:Ht; cbn [negb];
    [|by exit_leaf Hlog].
  destruct (Py.truthy (Some user)) eqn:Hu; cbn [negb mret P_ret];
    [|by exit_leaf Hlog].
  destruct (Py.truthy (Some source)) eqn:Hs; cbn [negb mret P_ret];
    [|by exit_leaf Hlog].
  unfold p_lift.
  destruct (__init__ token user source branch name) as [obj|e] eqn:Hinit.
  2:{ exists []. cbn [fst snd]. rewrite Hlog, app_nil_r. split_and!; done. }
  apply init_shape in Hinit as [name' ->].
  unfold call_method.
  pose proof (import_repo_events env token user source branch name'
                (p_fs p1) (p_calls p1) (rev (p_log p1))) as Hrun.
  cbv zeta in Hrun. unfold mk in Hrun. rewrite rev_involutive in Hrun.
  destruct (import_repo env _) as [r st]. cbn [fst snd] in *.
  destruct Hrun as (rest & Hrest & Hown).
  exists rest. cbn [p_log]. rewrite Hrest, Hlog.
  split_and!; auto.
Qed.

(** X18.  Every prompt of a process is either the overwrite confirmation
    of [import_repo] or one of the five prompts of [main], and [main]
    shows one of its own only for a value that was not given on the
    command line (or was given empty). *)
Theorem main_asks_only_for_missing_values (args : Namespace)
    (disk : gset string) (prompt : string) (r : input_reply) :
  let final := main env args (boot disk) in
  In (EInput prompt r) (p_log final.2) →
  prompt = overwrite_prompt
  ∨ (In prompt main_prompts ∧ Py.truthy (given_for args prompt) = false).
Proof.
  intros final. subst final.
  destruct (main_shape args disk) as (evs & rest & -> & _ & Hasked & Hown & _).
  intros [Hin|Hin]%in_app_or.
  - right. by eapply Hasked.
  - left. apply (in_forallb _ _ _ Hown) in Hin. by apply String.eqb_eq in Hin.
Qed.

(** X19.  No command is ever run unless token, user and source were all
    obtained: each given on the command line, or typed at its prompt
    with something other than blanks. *)
Theorem no_command_without_required_values (args : Namespace)
    (disk : gset string) (e : event) :
  let final := main env args (boot disk) in
  In e (p_log final.2) → is_command e = true →
  obtained (args_token args) token_prompt (p_log final.2)
  ∧ obtained (args_user args) user_prompt (p_log final.2)
  ∧ obtained (args_source args) source_prompt (p_log final.2).
Proof.
  intros final. subst final.
  destruct (main_shape args disk) as (evs & rest & -> & Hquiet & _ & _ & Hrest).
  intros [Hin|Hin]%in_app_or He.
  - apply (in_forallb _ _ _ Hquiet) in Hin. by rewrite He in Hin.
  - destruct (Hrest e Hin He) as (? & ? & ?).
    repeat split; by apply obtained_app.
Qed.

(** X20.  With token, user and source on the command line and no
    [--interactive], [main] asks nothing and prints nothing of its
    own: the process is the construction of the importer followed by
    [import_repo]. *)
Theorem main_with_all_flags_is_the_import (args : Namespace)
    (disk : gset string) (t u src : string) :
  args_interactive args = false →
  args_token args = Some t → t ≠ "" →
  args_user args = Some u → u ≠ "" →
  args_source args = Some src → src ≠ "" →
  let final := main env args (boot disk) in
  (final.1, p_fs final.2, p_log final.2)
  = main_run env disk t u src (args_branch args) (args_name args).
Proof.
  intros Hi Ht Htne Hu Hune Hs Hsne.
  destruct args as [tok usr srcv br nm inter]. simpl in *. subst.
  destruct t as [|c1 t]; [done|]. destruct u as [|c2 u]; [done|].
  destruct src as [|c3 src]; [done|].
  unfold main, main_run, read_inputs, mbind, P_bind, mret, P_ret, p_lift.
  cbn [args_token args_user args_source args_branch args_name args_interactive
       Py.truthy orb andb negb default from_option id].
  destruct (__init__ _ _ _ br nm) as [obj|e]; [|done].
  unfold call_method, boot, start. cbn [p_fs p_calls p_log].
  by destruct (import_repo env _) as [r st].
Qed.

End Main.

(** * More about runs: the whole sequence *)


Section Sequence.
Context {lib : PyLib} (env : Env).




(** From the clone on, a call that Ctrl-C cut short is never passed
    over. *)
Lemma transfer_interrupts Q t u src b name disk n acc :
  let s := importer t u src b name in
  (∀ r st' evs,
     log st' = (rev acc ++ evs)%list →
     (∀ e, In e evs → is_interrupted e = true →
           exit_status r ≠ 0
           ∧ (In (EPrint cancelled_line) evs ∨ r = Raise KeyboardInterrupt)) →
     Q r st') →
  wp (transfer_steps env s) (fin env Q) (mk s disk n acc).
Proof.
  intros s HQ. subst s.
  repeat wp_step.
  all: set (dir := staging_path env _) in *; clearbody dir.
  all: lazymatch goal with
       | |- _ _ (mk _ _ _ ?l) =>
           let f := front_of l acc in
           apply (HQ _ _ (rev f) (log_mk_app _ _ _ f acc))
       end.
  all: intros ev HIn He; cbn [rev app] in HIn; pick_by He HIn.
  all: split; [done|];
    first [ right; reflexivity
          | left; cbn [In]; solve [repeat first [ left; reflexivity | right ]] ].
Qed.

(** X22.  A call that Ctrl-C cut short is never passed over: the exit code
    of the run is not 0, and either the cancellation was reported (the
    interrupt came inside the [try] block) or [KeyboardInterrupt]
    itself leaves [import_repo] (it came during [_cleanup]). *)
Theorem interrupt_is_never_swallowed (t u src : string) (b : option string)
    (name : string) (disk : gset string) (e : event) :
  let s := importer t u src b name in
  let final := import_repo env (start s disk) in
  In e (log final.2) → is_interrupted e = true →
  exit_status final.1 ≠ 0
  ∧ (In (EPrint cancelled_line) (log final.2)
     ∨ final.1 = Raise KeyboardInterrupt).
Proof.
  follow_run. repeat prefix_step.
  all: lazymatch goal with
       | |- fin _ _ _ _ =>
           apply fin_nothing_to_clean; [reflexivity|]; wp_simpl;
           intros HIn He; pick_by He HIn;
           (split; [done|]); left; solve [find_in]
       | |- wp _ _ _ =>
           apply (transfer_interrupts _ t u src b name);
           intros r st' evs Hlog Htail HIn He;
           rewrite Hlog in HIn |- *;
           apply in_app_or in HIn as [HIn|HIn]; [by pick_by He HIn|];
           destruct (Htail e HIn He) as [Hexit [Hline|Hraised]];
           (split; [done|]);
           [ left; apply in_or_app; by right | by right ]
       end.
Qed.

End Sequence.

(** * The later sections on concrete runs *)

(** X1 at [https://example.com/group/proj.git]. *)
Lemma derived_name_shape_scenario :
  "proj" ≠ "" ∧ has_char "/" "proj" = false.
Proof.
  apply (derived_name_is_one_segment (lib := Sample.lib) Sample.source "proj").
  reflexivity.
Defined.

(** X2 where [git] is not installed. *)
Lemma missing_git_scenario :
  let final := import_repo (lib := Sample.lib) Cases.without_git
                 (start (Sample.job None) ∅) in
  exit_status final.1 = 1
  ∧ count is_which (log final.2) = 2%nat
  ∧ count is_api_or_vcs (log final.2) = 0%nat.
Proof.
  apply (missing_dependency_exits_1 (lib := Sample.lib) Cases.without_git
           "tok" "alice" Sample.source None "proj" ∅ "git" 1 "" "").
  - in_log.
  - discriminate.
Defined.

(** X3 where [git] is not installed and [curl] is. *)
Lemma missing_git_report_scenario :
  let final := import_repo (lib := Sample.lib) Cases.without_git
                 (start (Sample.job None) ∅) in
  In (EPrint (coloured Colors.FAIL
                ("Missing dependencies: " +:+ String.concat ", " (missing_of 1 0))))
    (log final.2).
Proof.
  apply (missing_dependencies_are_all_reported (lib := Sample.lib)
           Cases.without_git "tok" "alice" Sample.source None "proj" ∅
           1 0 "" "" "/usr/bin/tool" "").
  - in_log.
  - in_log.
  - discriminate.
Defined.

(** X4 at the probe of a run that goes well. *)
Lemma probe_needs_valid_token_scenario :
  let final := import_repo (lib := Sample.lib) (Sample.world Sample.happy)
                 (start (Sample.job None) ∅) in
  ∃ out err,
    In (ERun (validate_request (Sample.job None)) None (Completed 0 out err))
      (log final.2)
    ∧ Py.strip (lib := Sample.lib) out = "200".
Proof.
  apply (nothing_without_valid_token (lib := Sample.lib)
           (Sample.world Sample.happy) "tok" "alice" Sample.source None "proj" ∅
           (ERun (probe_request (Sample.job None)) None (Completed 0 "404" ""))).
  - in_log.
  - reflexivity.
Defined.

(** X5 at a run that goes well. *)
Lemma exit_0_scenario :
  let final := import_repo (lib := Sample.lib) (Sample.world Sample.happy)
                 (start (Sample.job None) ∅) in
  (In (EPrint success_line) (log final.2)
   ∧ ∃ out err, In (ERun (GitPushMirror (github_url (Sample.job None)))
                      (Some Sample.staging) (Completed 0 out err))
                  (log final.2))
  ∨ (∃ text, In (EInput overwrite_prompt (Typed text)) (log final.2)
             ∧ Py.lower (lib := Sample.lib) (Py.strip (lib := Sample.lib) text)
               ≠ "yes").
Proof.
  apply (exit_0_means_imported_or_declined (lib := Sample.lib)
           (Sample.world Sample.happy) "tok" "alice" Sample.source None "proj" ∅).
  reflexivity.
Defined.

(** X7 at an existing repository and the answer [ YES ]. *)
Lemma confirmed_overwrite_scenario :
  let final := import_repo (lib := Sample.lib) (Sample.world Cases.confirmed)
                 (start (Sample.job None) ∅) in
  count is_creation_start (log final.2) = 0%nat
  ∧ count is_lookup (log final.2) = 0%nat
  ∧ count is_create (log final.2) = 0%nat
  ∧ In (EPrint cloning_line) (log final.2).
Proof.
  apply (confirmed_overwrite_skips_creation (lib := Sample.lib)
           (Sample.world Cases.confirmed)
           "tok" "alice" Sample.source None "proj" ∅ "200" "" " YES ").
  - in_log.
  - reflexivity.
  - in_log.
  - reflexivity.
Defined.

(** X8 at an account of type [Organization]. *)
Lemma organization_scenario :
  let world := Sample.world (Cases.with_bodies Cases.org_body Sample.created_body) in
  let final := import_repo (lib := Cases.lib) world (start (Sample.job None) ∅) in
  count is_create (log final.2) = 1%nat
  ∧ ∃ reply, In (ERun (create_request (Sample.job None)
                         (org_endpoint (Sample.job None))) None reply)
               (log final.2).
Proof.
  apply (organization_targets_org_endpoint (lib := Cases.lib)
           (Sample.world (Cases.with_bodies Cases.org_body Sample.created_body))
           "tok" "alice" Sample.source None "proj" ∅ Cases.org_body ""
           (PyDict [("login", PyStr "acme"); ("type", PyStr "Organization")])).
  - in_log.
  - reflexivity.
  - reflexivity.
Defined.

(** X9 at a user-type lookup answered with [null]. *)
Lemma null_user_type_scenario :
  let world := Sample.world (Cases.with_bodies Cases.null_body Sample.created_body) in
  let final := import_repo (lib := Cases.lib) world (start (Sample.job None) ∅) in
  exit_status final.1 = 1
  ∧ count is_create (log final.2) = 0%nat
  ∧ count is_clone (log final.2) = 0%nat.
Proof.
  apply (user_type_not_an_object_is_fatal (lib := Cases.lib)
           (Sample.world (Cases.with_bodies Cases.null_body Sample.created_body))
           "tok" "alice" Sample.source None "proj" ∅ Cases.null_body "" PyNone).
  - in_log.
  - reflexivity.
  - discriminate.
Defined.

(** X10 at a creation response that is an object with an [id] only. *)
Lemma id_without_html_url_scenario :
  let world := Sample.world (Cases.with_bodies Sample.user_body Cases.id_only_body) in
  let final := import_repo (lib := Cases.lib) world (start (Sample.job None) ∅) in
  exit_status final.1 = 1
  ∧ In (EPrint [Lit (NL +:+ Colors.FAIL +:+ "Unexpected error: ");
               OfExn (KeyError "html_url"); Lit Colors.ENDC]) (log final.2)
  ∧ count is_clone (log final.2) = 0%nat.
Proof.
  apply (created_without_html_url_is_fatal (lib := Cases.lib)
           (Sample.world (Cases.with_bodies Sample.user_body Cases.id_only_body))
           "tok" "alice" Sample.source None "proj" ∅
           user_endpoint Cases.id_only_body "" (PyDict [("id", PyInt 7)])
           (KeyError "html_url")).
  - in_log.
  - reflexivity.
  - reflexivity.
  - reflexivity.
Defined.

(** X11 at a clone that exits with 128. *)
Lemma failed_clone_scenario :
  let world := Sample.world
                 (Cases.with_transfer (Exited 128 "" "fatal: not found")
                    (Exited 0 "" "")) in
  let final := import_repo (lib := Sample.lib) world (start (Sample.job None) ∅) in
  exit_status final.1 ≠ 0
  ∧ In (EPrint (coloured Colors.FAIL "Failed to clone source repository"))
      (log final.2)
  ∧ count is_push (log final.2) = 0%nat.
Proof.
  apply (failed_clone_is_fatal (lib := Sample.lib)
           (Sample.world
              (Cases.with_transfer (Exited 128 "" "fatal: not found")
                 (Exited 0 "" "")))
           "tok" "alice" Sample.source None "proj" ∅
           Sample.source Sample.staging 128 "" "fatal: not found").
  - in_log.
  - discriminate.
Defined.

(** X12 at a push that exits with 1. *)
Lemma failed_push_scenario :
  let world := Sample.world
                 (Cases.with_transfer (Exited 0 "" "")
                    (Exited 1 "" "remote: denied")) in
  let final := import_repo (lib := Sample.lib) world (start (Sample.job None) ∅) in
  exit_status final.1 ≠ 0
  ∧ count is_update_branch (log final.2) = 0%nat
  ∧ "https://tok@github.com/alice/proj.git"
    = "https://" +:+ "tok" +:+ "@github.com/" +:+ "alice" +:+ "/" +:+ "proj" +:+ ".git"
  ∧ In (EPrint [Lit (Colors.FAIL +:+ "Error executing command: ");
               OfCommand (GitPushMirror "https://tok@github.com/alice/proj.git");
               Lit Colors.ENDC])
      (log final.2).
Proof.
  apply (failed_push_is_fatal_and_prints_the_token (lib := Sample.lib)
           (Sample.world
              (Cases.with_transfer (Exited 0 "" "")
                 (Exited 1 "" "remote: denied")))
           "tok" "alice" Sample.source None "proj" ∅
           "https://tok@github.com/alice/proj.git" (Some Sample.staging)
           1 "" "remote: denied").
  - in_log.
  - discriminate.
Defined.

(** X13 with the custom branch [main]. *)
Lemma branch_update_answer_scenario :
  let final := import_repo (lib := Sample.lib) (Sample.world Sample.happy)
                 (start (Sample.job (Some "main")) ∅) in
  final.1 = Ok ()
  ∧ In (EPrint success_line) (log final.2).
Proof.
  apply (branch_update_answer_is_ignored (lib := Sample.lib)
           (Sample.world Sample.happy)
           "tok" "alice" Sample.source (Some "main") "proj" ∅ "main" "{}" "").
  - in_log.
  - intros cwd reply Hin. vm_compute in Hin.
    repeat match type of Hin with
           | _ ∨ _ => destruct Hin as [Hin|Hin]
           | False => destruct Hin
           end; try discriminate Hin.
    all: injection Hin as <- <-; by eexists _, _.
Defined.

(** X14 where the update cannot reach the service. *)
Lemma failed_branch_update_scenario :
  let final := import_repo (lib := Sample.lib) Cases.unreachable_for_update
                 (start (Sample.job (Some "main")) ∅) in
  exit_status final.1 ≠ 0
  ∧ ∃ o e, In (ERun (GitPushMirror (github_url (Sample.job (Some "main"))))
                 (Some Sample.staging) (Completed 0 o e))
             (log final.2).
Proof.
  apply (failed_branch_update_is_fatal (lib := Sample.lib)
           Cases.unreachable_for_update
           "tok" "alice" Sample.source (Some "main") "proj" ∅
           "main" 7 "" "curl: (7) Failed to connect").
  - in_log.
  - discriminate.
Defined.

(** X15 at a staging directory left behind. *)
Lemma stale_staging_dir_scenario :
  let final := import_repo (lib := Sample.lib) (Sample.world Sample.happy)
                 (start (Sample.job None) {[ Sample.staging ]}) in
  ∃ reply,
    List.find is_rm (log final.2) = Some (ERun (RmRf Sample.staging) None reply)
    ∧ count is_clone (events_before is_rm (log final.2)) = 0%nat
    ∧ ((∀ out err, reply ≠ Completed 0 out err) →
       count is_clone (log final.2) = 0%nat).
Proof.
  apply (stale_staging_dir_is_removed_first (lib := Sample.lib)
           (Sample.world Sample.happy)
           "tok" "alice" Sample.source None "proj" {[ Sample.staging ]}).
  - apply elem_of_singleton_2. reflexivity.
  - in_log.
Defined.

(** X16 at [which git] where [git] is not installed. *)
Lemma run_command_failure_scenario :
  let e := CalledProcessError (Which "git") 1 (Some "") in
  let final := _run_command (lib := Sample.lib) Cases.without_git
                 (Which "git") None true true (start (Sample.job None) ∅) in
  final.1 = Raise e
  ∧ log final.2
    = ([]
       ++ [ERun (Which "git") None (Completed 1 "" "");
           EPrint [Lit (Colors.FAIL +:+ "Error executing command: ");
                   OfCommand (Which "git"); Lit Colors.ENDC];
           EPrint [Lit Colors.FAIL; OfExn e; Lit Colors.ENDC]]
       ++ [])%list
  ∧ calls final.2 = 1%nat
  ∧ self final.2 = Sample.job None.
Proof.
  apply (run_command_reports_and_reraises (lib := Sample.lib)
           Cases.without_git (Which "git") None
           true (start (Sample.job None) ∅) 1 "" "").
  - reflexivity.
  - reflexivity.
  - discriminate.
Defined.

(** X17 at the token validation. *)
Lemma run_command_output_scenario :
  let cmd := validate_request (Sample.job None) in
  let final := _run_command (lib := Sample.lib) (Sample.world Sample.happy)
                 cmd None true true (start (Sample.job None) ∅) in
  final.1 = Ok (Some (Py.strip (lib := Sample.lib) "200"))
  ∧ log final.2 = ([] ++ [ERun cmd None (Completed 0 "200" "")])%list.
Proof.
  apply (run_command_returns_stripped_output (lib := Sample.lib)
           (Sample.world Sample.happy)
           (validate_request (Sample.job None)) None true true
           (start (Sample.job None) ∅) 0 "200" "").
  - reflexivity.
  - reflexivity.
  - right. reflexivity.
Defined.

(** X18 at the token prompt of a command line without options. *)
Lemma prompts_without_flags_scenario :
  token_prompt = overwrite_prompt
  ∨ (In token_prompt main_prompts
     ∧ Py.truthy (given_for Cases.no_flags token_prompt) = false).
Proof.
  apply (main_asks_only_for_missing_values (lib := Sample.lib)
           (Sample.world Sample.happy) Cases.no_flags ∅ token_prompt (Typed "")).
  in_log.
Defined.

(** X19 at [which git] of a run with every option given. *)
Lemma commands_with_flags_scenario :
  let final := main (H := Sample.lib) (Sample.world Sample.happy)
                 Cases.all_flags (boot ∅) in
  obtained (lib := Sample.lib) (args_token Cases.all_flags) token_prompt
    (p_log final.2)
  ∧ obtained (lib := Sample.lib) (args_user Cases.all_flags) user_prompt
      (p_log final.2)
  ∧ obtained (lib := Sample.lib) (args_source Cases.all_flags) source_prompt
      (p_log final.2).
Proof.
  apply (no_command_without_required_values (lib := Sample.lib)
           (Sample.world Sample.happy) Cases.all_flags ∅
           (ERun (Which "git") None (Completed 0 "/usr/bin/tool" ""))).
  - in_log.
  - reflexivity.
Defined.

(** X20 at a command line with token, user and source. *)
Lemma main_with_all_flags_scenario :
  let final := main (H := Sample.lib) (Sample.world Sample.happy)
                 Cases.all_flags (boot ∅) in
  (final.1, p_fs final.2, p_log final.2)
  = main_run (H := Sample.lib) (Sample.world Sample.happy) ∅
      "tok" "alice" Sample.source None None.
Proof.
  apply (main_with_all_flags_is_the_import (lib := Sample.lib)
           (Sample.world Sample.happy) Cases.all_flags ∅
           "tok" "alice" Sample.source);
    first [ reflexivity | discriminate ].
Defined.


(** X22 at a clone interrupted from the keyboard. *)
Lemma interrupted_clone_scenario :
  let final := import_repo (lib := Sample.lib)
                 (Sample.world Sample.interrupted_clone)
                 (start (Sample.job None) ∅) in
  exit_status final.1 ≠ 0
  ∧ (In (EPrint cancelled_line) (log final.2)
     ∨ final.1 = Raise KeyboardInterrupt).
Proof.
  apply (interrupt_is_never_swallowed (lib := Sample.lib)
           (Sample.world Sample.interrupted_clone)
           "tok" "alice" Sample.source None "proj" ∅
           (ERun (GitCloneMirror Sample.source Sample.staging) None Interrupted)).
  - in_log.
  - reflexivity.
Defined.
